(** * HeatShield backend: risk scoring engine and symptom triage

    A shallow embedding of the decision logic of [ml_model.py]
    ([RiskPredictionModel], [SymptomAnalyzer]) and of the heat-index
    calculator of [data_fetcher.py] ([DataFetcher._calculate_heat_index]),
    followed by the properties the specification states about them.

    Numbers.  The readings, the risk score and the heat index are Python
    floats (IEEE 754 binary64); they are embedded as Rocq's primitive
    [float], whose operations are the binary64 ones, so [3.5 + r * 0.3]
    below is the very computation Python performs.  A Python [int] that
    reaches these computations (a JSON temperature of [42], an age of [65])
    is embedded as the float of the same value, which is exact below 2^53
    and changes neither a comparison nor an arithmetic result.  The symptom
    severity and the label arithmetic of the training loop are Python
    integers and are embedded as [Z].

    Strings are Python [str] values, embedded as the byte strings of their
    UTF-8 encoding.

    Dictionaries with a fixed set of keys (a weather reading, a user
    profile, a symptom log) are records of options: [None] is an absent
    key, [d['k']] is [getitem] and raises [KeyError], [d.get('k', v)] is
    [get]. *)

From Stdlib Require Import ZArith List String Ascii Bool Lia.
From Stdlib Require Import Floats DecimalString.
Import ListNotations.

Set Warnings "-inexact-float".

(** ** Python runtime: exceptions, numbers, strings *)

Module Py.

(** The exceptions the embedded statements can raise. *)
Inductive exn : Type :=
| KeyError (key : string)
| ValueError
| OverflowError.

Definition result (A : Type) : Type := (exn + A)%type.

Definition Ok {A : Type} (a : A) : result A := inr a.
Definition Raise {A : Type} (e : exn) : result A := inl e.

Definition bind {A B : Type} (c : result A) (k : A -> result B) : result B :=
  match c with
  | inl e => inl e
  | inr a => k a
  end.

(** [d[key]] on a dictionary whose entry for [key] is [field]. *)
Definition getitem {A : Type} (key : string) (field : option A) : result A :=
  match field with
  | Some v => Ok v
  | None => Raise (KeyError key)
  end.

(** [d.get(key, default)]. *)
Definition get {A : Type} (field : option A) (default : A) : A :=
  match field with
  | Some v => v
  | None => default
  end.

(** [l.append(x)], as the list after the call. *)
Definition append {A : Type} (l : list A) (x : A) : list A :=
  (l ++ [x])%list.

(** The truth value of a list: false when empty. *)
Definition truth {A : Type} (l : list A) : bool :=
  match l with
  | [] => false
  | _ :: _ => true
  end.

(** The truth value of a list that may be [None]. *)
Definition truth_opt {A : Type} (v : option (list A)) : bool :=
  match v with
  | Some l => truth l
  | None => false
  end.

(** [len(l)]. *)
Definition len {A : Type} (l : list A) : Z := Z.of_nat (List.length l).

(** [x in l] for a list of strings. *)
Definition contains (l : list string) (x : string) : bool :=
  existsb (String.eqb x) l.

(** [sep.join(l)]. *)
Definition join (sep : string) (l : list string) : string :=
  String.concat sep l.

(** [str(n)] for an integer. *)
Definition str (n : Z) : string :=
  NilZero.string_of_int (Z.to_int n).

(** A string given by the bytes of its UTF-8 encoding. *)
Definition utf8 (bytes : list nat) : string :=
  string_of_list_ascii (map ascii_of_nat bytes).

(** The float nearest to an integer: storing a Python [int] into a
    float64 array, or mixing it with floats in arithmetic. *)
Definition float_of_int (n : Z) : float :=
  SF2Prim (binary_normalize prec emax n 0 false).

(** [int(x)] for a float: truncation towards zero; [ValueError] on a
    NaN and [OverflowError] on an infinity. *)
Definition int (x : float) : result Z :=
  match Prim2SF x with
  | S754_nan => Raise ValueError
  | S754_infinity _ => Raise OverflowError
  | S754_zero _ => Ok 0%Z
  | S754_finite s m e => Ok (cond_Zopp s (Z.shiftl (Zpos m) e))
  end.

(** [math.floor(x)]: the largest integer not above [x], with the same
    exceptions as [int]. *)
Definition floor (x : float) : result Z :=
  match Prim2SF x with
  | S754_nan => Raise ValueError
  | S754_infinity _ => Raise OverflowError
  | S754_zero _ => Ok 0%Z
  | S754_finite s m e => Ok (Z.shiftl (cond_Zopp s (Zpos m)) e)
  end.

(** The integer nearest to [10 * m * 2^e], ties to the even one: the
    digits Python keeps when it rounds or prints a finite float to one
    decimal place (correctly rounded, round-half-even on the exact
    binary value). *)
Definition tenths_half_even (m : positive) (e : Z) : Z :=
  if (0 <=? e)%Z then Z.shiftl (10 * Zpos m) e
  else
    let d := Z.shiftl 1 (- e) in
    let q := (10 * Zpos m / d)%Z in
    let r := ((10 * Zpos m) mod d)%Z in
    match (2 * r ?= d)%Z with
    | Lt => q
    | Gt => (q + 1)%Z
    | Eq => if Z.even q then q else (q + 1)%Z
    end.

(** [round(x, 1)] for a float: the float nearest to the one-decimal
    number nearest to [x].  NaN, infinities, zeros and the floats that
    are integers (exponent [0 <= e]) round to themselves. *)
Definition round_1 (x : float) : float :=
  match Prim2SF x with
  | S754_finite s m e =>
      if (0 <=? e)%Z then x
      else
        match tenths_half_even m e with
        | Zpos n =>
            SF2Prim (SF64div (S754_finite s n 0) (S754_finite false 10 0))
        | _ => if s then (-0)%float else 0%float
        end
  | _ => x
  end.

(** [f'{x:.1f}']. *)
Definition format_1f (x : float) : string :=
  let sign (s : bool) : string := if s then "-"%string else ""%string in
  match Prim2SF x with
  | S754_nan => "nan"%string
  | S754_infinity s => (sign s ++ "inf")%string
  | S754_zero s => (sign s ++ "0.0")%string
  | S754_finite s m e =>
      let n := tenths_half_even m e in
      (sign s ++ str (n / 10) ++ "." ++ str (n mod 10))%string
  end.

End Py.

(** ** Binary64: order and sign of the specification floats *)

Module Binary64.

(** A key whose lexicographic order is the order of the floats: first
    the class (negative infinity, negative, zero, positive, positive
    infinity), then exponent and mantissa, negated for a negative float.
    A NaN has no key: it compares with nothing. *)
Definition key (x : spec_float) : option (Z * Z * Z) :=
  match x with
  | S754_nan => None
  | S754_zero _ => Some (0, 0, 0)%Z
  | S754_infinity s => Some (if s then (-2)%Z else 2%Z, 0%Z, 0%Z)
  | S754_finite s m e =>
      Some (if s then ((-1)%Z, (- e)%Z, Zneg m) else (1%Z, e, Zpos m))
  end.

Definition lex (a b : Z * Z * Z) : comparison :=
  let '(a1, a2, a3) := a in
  let '(b1, b2, b3) := b in
  match (a1 ?= b1)%Z with
  | Eq => match (a2 ?= b2)%Z with
          | Eq => (a3 ?= b3)%Z
          | c => c
          end
  | c => c
  end.

(** A float whose sign bit is clear, or a zero or NaN. *)
Definition nonneg (x : spec_float) : Prop :=
  match x with
  | S754_zero _ | S754_nan => True
  | S754_infinity s | S754_finite s _ _ => s = false
  end.



End Binary64.

Notation "x <- c ;; k" := (Py.bind c (fun x => k))
  (at level 61, c at next level, right associativity).

(** Python's [a > b] and [a >= b] on floats are [b < a] and [b <= a]. *)
Notation "x >? y" := (PrimFloat.ltb y x)
  (at level 70, no associativity) : float_scope.
Notation "x >=? y" := (PrimFloat.leb y x)
  (at level 70, no associativity) : float_scope.

(** ** [data_fetcher.py]: the heat-index calculator *)

Module DataFetcher.
Local Open Scope float_scope.

(** [DataFetcher._calculate_heat_index] (lines 112-134). *)
Definition _calculate_heat_index (temperature humidity : float) : float :=
  if temperature <? 27 then temperature
  else
    let T := temperature in
    let RH := humidity in
    let HI := (-8.78469475556 +
               1.61139411 * T +
               2.33854883889 * RH +
               -0.14611605 * T * RH +
               -0.012308094 * T * T +
               -0.0164248277778 * RH * RH +
               0.002211732 * T * T * RH +
               0.00072546 * T * RH * RH +
               -0.000003582 * T * T * RH * RH) in
    Py.round_1 HI.


End DataFetcher.

(** ** [ml_model.py]: the risk prediction model *)

Module RiskPredictionModel.
Local Open Scope string_scope.
Local Open Scope float_scope.

(** *** Data *)

(** The weather reading ([weather_data]): the keys the model reads. *)
Record WeatherData : Type := {
  temperature : option float;
  heat_index : option float;
  humidity : option float;
  uv_index : option float;
  timestamp : option string
}.

(** The air-quality reading ([aqi_data]). *)
Record AqiData : Type := {
  aqi : option float;
  pm2_5 : option float
}.

(** The user profile ([user_profile]); [health_conditions] is a list of
    condition names, and [user_profile.get('health_conditions')] is
    [None] when the key is absent. *)
Record UserProfile : Type := {
  age : option float;
  outdoor_hours : option float;
  health_conditions : option (list string)
}.

(** One recommendation: a dictionary with these four keys. *)
Record Advisory : Type := {
  category : string;
  priority : string;
  message : string;
  action : string
}.

(** The dictionary [predict_risk] returns. *)
Record RiskAssessment : Type := {
  risk_score : float;
  severity_level : string;
  recommendations : list Advisory;
  assessment_timestamp : string
}.

(** The fitted artifact ([self.scaler], [self.model]).  Scaling and the
    random forest are scikit-learn's; the model keeps them as the two
    functions [predict_risk] calls, on one row of nine features. *)
Record Artifact : Type := {
  scaler_transform : list float -> list float;
  model_predict : list float -> float
}.

(** *** Training labels, [_train_model] (lines 58-91) *)

(** [X_train[i, k]] for the row [x = X_train[i]]; a row has nine
    columns, so the default is never read. *)
Definition col (x : list float) (k : nat) : float := nth k x 0.

(** The rule score of one sample: the body of the loop up to line 89. *)
Definition rule_risk (x : list float) : Z :=
  let risk := 0%Z in
  (* Temperature contribution *)
  let risk :=
    if col x 0 >? 40 then (risk + 3)%Z
    else if col x 0 >? 35 then (risk + 2)%Z
    else if col x 0 >? 32 then (risk + 1)%Z
    else risk in
  (* AQI contribution *)
  let risk :=
    if col x 4 >? 300 then (risk + 3)%Z
    else if col x 4 >? 200 then (risk + 2)%Z
    else if col x 4 >? 100 then (risk + 1)%Z
    else risk in
  (* UV index contribution *)
  let risk := if col x 3 >? 8 then (risk + 1)%Z else risk in
  (* Age and health conditions *)
  let risk :=
    if (col x 6 >? 60) || (col x 8 =? 1) then (risk + 1)%Z else risk in
  (* Outdoor hours *)
  let risk := if col x 7 >? 6 then (risk + 1)%Z else risk in
  risk.

(** Line 91: [y_train[i] = min(10, risk + np.random.randint(-1, 2))],
    where [noise] is the integer drawn; the integer is stored into a
    float64 array. *)
Definition train_label (x : list float) (noise : Z) : float :=
  Py.float_of_int (Z.min 10 (rule_risk x + noise)).

(** The draws of [np.random.randint(-1, 2)]. *)
Definition noise_values : list Z := [-1; 0; 1]%Z.

(** The labels of a training set: one per row and draw. *)
Definition y_train (X_train : list (list float)) (noise : list Z) : list float :=
  map (fun xn => train_label (fst xn) (snd xn)) (combine X_train noise).

(** The deterministic rule score as the specification states it
    (section 4.3), on the six features it reads. *)
Definition spec_rule_score (temperature aqi uv age healthCondition outdoorHours : float) : Z :=
  let add (risk : Z) (points : Z) : Z := (risk + points)%Z in
  let risk := 0%Z in
  let risk := add risk (if temperature >? 40 then 3%Z
                        else if temperature >? 35 then 2%Z
                        else if temperature >? 32 then 1%Z else 0%Z) in
  let risk := add risk (if aqi >? 300 then 3%Z
                        else if aqi >? 200 then 2%Z
                        else if aqi >? 100 then 1%Z else 0%Z) in
  let risk := add risk (if uv >? 8 then 1%Z else 0%Z) in
  let risk := add risk (if (age >? 60) || (healthCondition =? 1) then 1%Z else 0%Z) in
  let risk := add risk (if outdoorHours >? 6 then 1%Z else 0%Z) in
  risk.

(** The label as the specification states it: the rule score plus the
    perturbation, clipped to [0, 10]. *)
Definition spec_label (x : list float) (noise : Z) : Z :=
  Z.max 0 (Z.min 10
    (spec_rule_score (col x 0) (col x 4) (col x 3) (col x 6) (col x 8) (col x 7)
     + noise)).

(** A forest fitted on the labels [labels] answers with one of them:
    a classifier predicts a class it has seen. *)
Definition emits_labels (self : Artifact) (labels : list float) : Prop :=
  forall X : list float, In (model_predict self X) labels.

(** *** Severity banding, [_get_severity_level] (lines 160-169) *)

Definition _get_severity_level (risk_score : float) : string :=
  if risk_score <=? 2 then "Low"
  else if risk_score <=? 5 then "Moderate"
  else if risk_score <=? 7 then "High"
  else "Very High".

(** *** Recommendations, [_generate_recommendations] (lines 171-255) *)

(** The pictographs that open the messages, as the bytes the source file
    holds for them. *)
Definition icon_extreme_heat : string :=
  Py.utf8 [195; 176; 197; 184; 197; 146; 194; 161; 195; 175; 194; 184]%nat.
Definition icon_very_hot : string :=
  Py.utf8 [195; 162; 203; 156; 226; 130; 172; 195; 175; 194; 184]%nat.
Definition icon_water : string :=
  Py.utf8 [195; 176; 197; 184; 226; 128; 153; 194; 167]%nat.
Definition icon_mask : string :=
  Py.utf8 [195; 176; 197; 184; 203; 156; 194; 183]%nat.
Definition icon_sunglasses : string :=
  Py.utf8 [195; 176; 197; 184; 226; 128; 162; 194; 182; 195; 175; 194; 184]%nat.
Definition icon_medical : string :=
  Py.utf8 [195; 162; 197; 161; 226; 128; 162; 195; 175; 194; 184]%nat.
Definition icon_elderly : string :=
  Py.utf8 [195; 176; 197; 184; 226; 128; 152; 194; 180]%nat.
Definition icon_warning : string :=
  Py.utf8 [195; 162; 197; 161; 194; 160; 195; 175; 194; 184]%nat.

(** Line 194: [daily_water = 3.5 + (risk_score * 0.3)], in liters. *)
Definition daily_water (risk_score : float) : float :=
  3.5 + (risk_score * 0.3).

(** [risk_score] is the numpy float64 the forest answers with, so
    [12/daily_water] is numpy's division: a zero divisor gives an
    infinity or a NaN, and it is [int] that raises on it. *)
Definition _generate_recommendations (risk_score : float)
    (user_profile : UserProfile) (weather_data : WeatherData)
    (aqi_data : AqiData) : Py.result (list Advisory) :=
  let recommendations : list Advisory := [] in
  (* Temperature-based recommendations *)
  temp <- Py.getitem "temperature" (temperature weather_data) ;;
  let recommendations :=
    if temp >? 40 then
      Py.append recommendations
        {| category := "heat";
           priority := "high";
           message := icon_extreme_heat ++ " Extreme heat! Stay indoors during 11 AM - 4 PM";
           action := "Avoid outdoor activities" |}
    else if temp >? 35 then
      Py.append recommendations
        {| category := "heat";
           priority := "medium";
           message := icon_very_hot ++ " Very hot weather. Limit outdoor exposure";
           action := "Stay in shade, wear light clothing" |}
    else recommendations in
  (* Hydration recommendations *)
  recommendations <-
    (if (temp >? 32) || (risk_score >? 3) then
       let daily_water := daily_water risk_score in
       hours <- Py.int (12 / daily_water) ;;
       Py.Ok (Py.append recommendations
         {| category := "hydration";
            priority := "high";
            message := icon_water ++ " Drink at least "
                       ++ Py.format_1f daily_water ++ "L water today";
            action := "Drink water every " ++ Py.str hours ++ " hours" |})
     else Py.Ok recommendations) ;;
  (* AQI-based recommendations *)
  aqi <- Py.getitem "aqi" (aqi aqi_data) ;;
  let recommendations :=
    if aqi >? 200 then
      Py.append recommendations
        {| category := "air_quality";
           priority := "high";
           message := icon_mask ++ " Poor air quality! Wear N95 mask outdoors";
           action := "Use air purifier indoors, close windows" |}
    else if aqi >? 100 then
      Py.append recommendations
        {| category := "air_quality";
           priority := "medium";
           message := icon_mask ++ " Moderate pollution. Consider wearing mask";
           action := "Reduce outdoor exercise" |}
    else recommendations in
  (* UV protection *)
  uv <- Py.getitem "uv_index" (uv_index weather_data) ;;
  let recommendations :=
    if uv >? 7 then
      Py.append recommendations
        {| category := "uv_protection";
           priority := "medium";
           message := icon_sunglasses ++ " High UV levels. Protect your skin";
           action := "Use sunscreen SPF 30+, wear sunglasses" |}
    else recommendations in
  (* Health condition specific *)
  let recommendations :=
    if Py.truth_opt (health_conditions user_profile) then
      Py.append recommendations
        {| category := "health";
           priority := "high";
           message := icon_medical ++ " Extra caution due to health conditions";
           action := "Monitor symptoms closely, stay cool" |}
    else recommendations in
  (* Age-specific for elderly *)
  let recommendations :=
    if Py.get (age user_profile) 0 >? 60 then
      Py.append recommendations
        {| category := "health";
           priority := "high";
           message := icon_elderly ++ " Take extra care in extreme conditions";
           action := "Stay indoors, keep emergency contacts ready" |}
    else recommendations in
  (* General recommendations based on risk *)
  let recommendations :=
    if risk_score >? 7 then
      Py.append recommendations
        {| category := "general";
           priority := "critical";
           message := icon_warning ++ " VERY HIGH RISK! Minimize all outdoor activities";
           action := "Stay indoors, seek medical help if feeling unwell" |}
    else recommendations in
  Py.Ok recommendations.

(** The rule table of the specification (section 4.4): seven rules in
    a fixed order, each giving at most one advisory. *)

Definition spec_rule_heat (temperature : float) : list Advisory :=
  if temperature >? 40 then
    [ {| category := "heat"; priority := "high";
         message := icon_extreme_heat ++ " Extreme heat! Stay indoors during 11 AM - 4 PM";
         action := "Avoid outdoor activities" |} ]
  else if temperature >? 35 then
    [ {| category := "heat"; priority := "medium";
         message := icon_very_hot ++ " Very hot weather. Limit outdoor exposure";
         action := "Stay in shade, wear light clothing" |} ]
  else [].

(** [dailyWater = 3.5 + 0.3 * riskScore]. *)
Definition spec_dailyWater (riskScore : float) : float :=
  3.5 + 0.3 * riskScore.

Definition spec_hydration_fires (temperature riskScore : float) : bool :=
  (temperature >? 32) || (riskScore >? 3).

(** The hydration advisory for an interval hint of [hours]. *)
Definition spec_hydration_advisory (riskScore : float) (hours : Z) : Advisory :=
  {| category := "hydration"; priority := "high";
     message := icon_water ++ " Drink at least "
                ++ Py.format_1f (spec_dailyWater riskScore) ++ "L water today";
     action := "Drink water every " ++ Py.str hours ++ " hours" |}.

Definition spec_rule_hydration (temperature riskScore : float) (hours : Z)
    : list Advisory :=
  if spec_hydration_fires temperature riskScore then
    [ spec_hydration_advisory riskScore hours ]
  else [].

Definition spec_rule_air_quality (aqi : float) : list Advisory :=
  if aqi >? 200 then
    [ {| category := "air_quality"; priority := "high";
         message := icon_mask ++ " Poor air quality! Wear N95 mask outdoors";
         action := "Use air purifier indoors, close windows" |} ]
  else if aqi >? 100 then
    [ {| category := "air_quality"; priority := "medium";
         message := icon_mask ++ " Moderate pollution. Consider wearing mask";
         action := "Reduce outdoor exercise" |} ]
  else [].

Definition spec_rule_uv_protection (uvIndex : float) : list Advisory :=
  if uvIndex >? 7 then
    [ {| category := "uv_protection"; priority := "medium";
         message := icon_sunglasses ++ " High UV levels. Protect your skin";
         action := "Use sunscreen SPF 30+, wear sunglasses" |} ]
  else [].

Definition spec_rule_health_conditions (hasHealthConditions : bool)
    : list Advisory :=
  if hasHealthConditions then
    [ {| category := "health"; priority := "high";
         message := icon_medical ++ " Extra caution due to health conditions";
         action := "Monitor symptoms closely, stay cool" |} ]
  else [].

(** The age rule; a profile without an age matches no rule. *)
Definition spec_rule_age (age : option float) : list Advisory :=
  match age with
  | Some years =>
      if years >? 60 then
        [ {| category := "health"; priority := "high";
             message := icon_elderly ++ " Take extra care in extreme conditions";
             action := "Stay indoors, keep emergency contacts ready" |} ]
      else []
  | None => []
  end.

Definition spec_rule_general (riskScore : float) : list Advisory :=
  if riskScore >? 7 then
    [ {| category := "general"; priority := "critical";
         message := icon_warning ++ " VERY HIGH RISK! Minimize all outdoor activities";
         action := "Stay indoors, seek medical help if feeling unwell" |} ]
  else [].

(** The seven rule outputs in the documented order: heat, hydration,
    air_quality, uv_protection, health conditions, age, general. *)
Definition spec_rules (riskScore : float) (profile : UserProfile)
    (temperature uvIndex aqi : float) (hours : Z) : list (list Advisory) :=
  [ spec_rule_heat temperature;
    spec_rule_hydration temperature riskScore hours;
    spec_rule_air_quality aqi;
    spec_rule_uv_protection uvIndex;
    spec_rule_health_conditions (Py.truth_opt (health_conditions profile));
    spec_rule_age (age profile);
    spec_rule_general riskScore ].

(** The category each rule emits, and whether the rule matches. *)
Definition spec_rule_categories : list string :=
  [ "heat"; "hydration"; "air_quality"; "uv_protection"; "health";
    "health"; "general" ].

Definition spec_rule_matches (riskScore : float) (profile : UserProfile)
    (temperature uvIndex aqi : float) : list bool :=
  [ (temperature >? 40) || (temperature >? 35);
    spec_hydration_fires temperature riskScore;
    (aqi >? 200) || (aqi >? 100);
    uvIndex >? 7;
    Py.truth_opt (health_conditions profile);
    match age profile with Some years => years >? 60 | None => false end;
    riskScore >? 7 ].

Definition spec_recommend (riskScore : float) (profile : UserProfile)
    (temperature uvIndex aqi : float) (hours : Z) : list Advisory :=
  List.concat (spec_rules riskScore profile temperature uvIndex aqi hours).

(** *** Prediction, [predict_risk] (lines 115-158) *)

(** Lines 128-138: the feature list, read in the order of
    [feature_names]; the first absent reading raises. *)
Definition features (user_profile : UserProfile) (weather_data : WeatherData)
    (aqi_data : AqiData) : Py.result (list float) :=
  f_temperature <- Py.getitem "temperature" (temperature weather_data) ;;
  f_heat_index <- Py.getitem "heat_index" (heat_index weather_data) ;;
  f_humidity <- Py.getitem "humidity" (humidity weather_data) ;;
  f_uv_index <- Py.getitem "uv_index" (uv_index weather_data) ;;
  f_aqi <- Py.getitem "aqi" (aqi aqi_data) ;;
  f_pm2_5 <- Py.getitem "pm2_5" (pm2_5 aqi_data) ;;
  Py.Ok [ f_temperature;
          f_heat_index;
          f_humidity;
          f_uv_index;
          f_aqi;
          f_pm2_5;
          Py.get (age user_profile) 30;
          Py.get (outdoor_hours user_profile) 4;
          if Py.truth_opt (health_conditions user_profile) then 1 else 0 ].

Definition predict_risk (self : Artifact) (user_profile : UserProfile)
    (weather_data : WeatherData) (aqi_data : AqiData)
    : Py.result RiskAssessment :=
  (* Extract features *)
  features <- features user_profile weather_data aqi_data ;;
  (* Predict *)
  let X := features in
  let X_scaled := scaler_transform self X in
  let score := model_predict self X_scaled in
  (* Get severity level *)
  let severity := _get_severity_level score in
  (* Generate recommendations *)
  recs <- _generate_recommendations score user_profile weather_data aqi_data ;;
  stamp <- Py.getitem "timestamp" (timestamp weather_data) ;;
  Py.Ok {| risk_score := score;
           severity_level := severity;
           recommendations := recs;
           assessment_timestamp := stamp |}.

(** *** Sample inputs *)

(** A sample of the synthetic ranges with no risk factor: 25 degrees,
    heat index 30, humidity 50, UV 3, AQI 50, PM2.5 20, age 30, two
    outdoor hours, no health condition. *)
Definition cool_sample : list float := [25; 30; 50; 3; 50; 20; 30; 2; 0].

Definition cool_weather : WeatherData :=
  {| temperature := Some 25; heat_index := Some 30; humidity := Some 50;
     uv_index := Some 3; timestamp := Some "2024-01-01T12:00:00" |}.
Definition cool_air : AqiData := {| aqi := Some 50; pm2_5 := Some 20 |}.
Definition cool_profile : UserProfile :=
  {| age := Some 30; outdoor_hours := Some 2; health_conditions := Some [] |}.

(** An artifact fitted on the single sample [cool_sample] with the draw
    [-1]: the scaler of a single row subtracts that row (mean the row,
    scale one), and the forest has one class, the label of that row. *)
Definition cool_artifact : Artifact :=
  {| scaler_transform :=
       fun X => map (fun xm => fst xm - snd xm) (combine X cool_sample);
     model_predict := fun _ => train_label cool_sample (-1) |}.

(** The example of the module's own test: 42 degrees, AQI 220, UV 9. *)
Definition hot_weather : WeatherData :=
  {| temperature := Some 42; heat_index := Some 48; humidity := Some 70;
     uv_index := Some 9; timestamp := Some "2024-01-01T12:00:00" |}.
Definition hot_air : AqiData := {| aqi := Some 220; pm2_5 := Some 95 |}.
Definition elderly_profile : UserProfile :=
  {| age := Some 65; outdoor_hours := Some 6;
     health_conditions := Some ["asthma"] |}.

End RiskPredictionModel.

(** ** [ml_model.py]: the symptom analyzer *)

Module SymptomAnalyzer.
Local Open Scope string_scope.
Local Open Scope Z_scope.

(** One alert: a dictionary with these three keys. *)
Record Alert : Type := {
  level : string;
  message : string;
  action : string
}.

(** A previous symptom log; only its [severity] is read. *)
Record SymptomLog : Type := {
  severity : option Z
}.

(** [log.get('severity', 0)]. *)
Definition get_severity (log : SymptomLog) : Z := Py.get (severity log) 0.

(** The dictionary [analyze_symptoms] returns; [analysis_timestamp] is
    always [None]. *)
Record SymptomAnalysis : Type := {
  is_urgent : bool;
  alerts : list Alert;
  recommendations : list string;
  analysis_timestamp : option string
}.

Definition SEVERE_SYMPTOMS : list string := [
  "chest_pain"; "severe_headache"; "difficulty_breathing";
  "confusion"; "loss_of_consciousness"; "severe_nausea"
].

Definition icon_siren : string :=
  Py.utf8 [195; 176; 197; 184; 197; 161; 194; 168]%nat.
Definition icon_warning : string :=
  Py.utf8 [195; 162; 197; 161; 194; 160; 195; 175; 194; 184]%nat.
Definition icon_chart : string :=
  Py.utf8 [195; 176; 197; 184; 226; 128; 156; 197; 160]%nat.

(** [_get_symptom_recommendations] (lines 325-344). *)
Definition _get_symptom_recommendations (symptoms : list string) (severity : Z)
    : list string :=
  let recommendations : list string := [] in
  let recommendations :=
    if Py.contains symptoms "headache" then
      Py.append recommendations "Rest in cool, dark room. Stay hydrated"
    else recommendations in
  let recommendations :=
    if Py.contains symptoms "fatigue" || Py.contains symptoms "dizziness" then
      Py.append recommendations "Drink water and electrolyte solution. Avoid exertion"
    else recommendations in
  let recommendations :=
    if Py.contains symptoms "breathing_difficulty" then
      Py.append recommendations "Stay in air-conditioned space. Avoid polluted areas"
    else recommendations in
  let recommendations :=
    if Py.contains symptoms "nausea" then
      Py.append recommendations "Sip water slowly. Eat light foods. Rest"
    else recommendations in
  let recommendations :=
    if severity >=? 5 then
      Py.append recommendations "Monitor temperature. Take rest. Stay cool"
    else recommendations in
  recommendations.

(** [analyze_symptoms] (lines 265-323).  The state of the body is the
    pair of [alerts] and [is_urgent]; no statement of it raises. *)
Definition analyze_symptoms (symptoms : list string) (severity : Z)
    (user_history : option (list SymptomLog)) : Py.result SymptomAnalysis :=
  let alerts : list Alert := [] in
  let is_urgent := false in
  (* Check for severe symptoms *)
  let severe_found := filter (Py.contains SEVERE_SYMPTOMS) symptoms in
  let '(is_urgent, alerts) :=
    if Py.truth severe_found then
      (true,
       Py.append alerts
         {| level := "critical";
            message := icon_siren ++ " URGENT: "
                       ++ Py.join ", " severe_found ++ " detected";
            action := "Seek immediate medical attention" |})
    else (is_urgent, alerts) in
  (* High severity alert *)
  let '(is_urgent, alerts) :=
    if severity >=? 8 then
      (true,
       Py.append alerts
         {| level := "high";
            message := icon_warning ++ " High severity symptoms reported";
            action := "Contact doctor or visit hospital" |})
    else if severity >=? 6 then
      (is_urgent,
       Py.append alerts
         {| level := "medium";
            message := icon_warning ++ " Moderate symptoms detected";
            action := "Rest and monitor. Consult doctor if worsens" |})
    else (is_urgent, alerts) in
  (* Pattern detection in history *)
  let alerts :=
    match user_history with
    | Some history =>
        if Py.truth history && (Py.len history >=? 3) then
          let recent_severities :=
            map get_severity (firstn 3 history) in
          if forallb (fun s => s >=? 5) recent_severities then
            Py.append alerts
              {| level := "high";
                 message := icon_chart ++ " Persistent symptoms detected";
                 action := "Schedule medical checkup" |}
          else alerts
        else alerts
    | None => alerts
    end in
  (* Recommendations *)
  let recommendations := _get_symptom_recommendations symptoms severity in
  Py.Ok {| is_urgent := is_urgent;
           alerts := alerts;
           recommendations := recommendations;
           analysis_timestamp := None |}.

(** The history rule as the specification states it (section 4.5): at
    least three entries, and the three most recent all of severity at
    least 5. *)
Definition spec_persistent (history : option (list SymptomLog)) : bool :=
  match history with
  | Some (a :: b :: c :: _) =>
      (get_severity a >=? 5) && (get_severity b >=? 5) && (get_severity c >=? 5)
  | _ => false
  end.

(** Some symptom of the list is a severe one. *)
Definition spec_severe_match (symptoms : list string) : Prop :=
  exists s, In s symptoms /\ In s SEVERE_SYMPTOMS.

Definition critical_alert (severe_found : list string) : Alert :=
  {| level := "critical";
     message := icon_siren ++ " URGENT: "
                ++ Py.join ", " severe_found ++ " detected";
     action := "Seek immediate medical attention" |}.

Definition high_alert : Alert :=
  {| level := "high";
     message := icon_warning ++ " High severity symptoms reported";
     action := "Contact doctor or visit hospital" |}.

Definition medium_alert : Alert :=
  {| level := "medium";
     message := icon_warning ++ " Moderate symptoms detected";
     action := "Rest and monitor. Consult doctor if worsens" |}.

Definition persistent_alert : Alert :=
  {| level := "high";
     message := icon_chart ++ " Persistent symptoms detected";
     action := "Schedule medical checkup" |}.

(** The alerts of the three triage rules of the specification, in
    their order: severe symptoms, severity, history. *)
Definition spec_alerts (symptoms : list string) (severity : Z)
    (history : option (list SymptomLog)) : list Alert :=
  let matched := filter (Py.contains SEVERE_SYMPTOMS) symptoms in
  ((if Py.truth matched then [critical_alert matched] else [])
   ++ (if severity >=? 8 then [high_alert]
       else if severity >=? 6 then [medium_alert] else [])
   ++ (if spec_persistent history then [persistent_alert] else []))%list.

(** The symptom tags that the text-advisory rules look for. *)
Definition advice_tags : list string :=
  ["headache"; "fatigue"; "dizziness"; "breathing_difficulty"; "nausea"].

End SymptomAnalyzer.

(** ** [data_fetcher.py]: the fetcher around the calculator *)

Module Fetcher.
Local Open Scope string_scope.
Local Open Scope float_scope.

(** The fetcher object: [self.api_key] and [self.use_mock]. *)
Record DataFetcher : Type := {
  api_key : string;
  use_mock : bool
}.

(** [DataFetcher.__init__] (lines 15-17), on the two configuration
    values the module reads: [OPENWEATHER_API_KEY] and
    [MOCK_DATA_ENABLED]. *)
Definition init (OPENWEATHER_API_KEY : string) (MOCK_DATA_ENABLED : bool)
    : DataFetcher :=
  {| api_key := OPENWEATHER_API_KEY;
     use_mock := MOCK_DATA_ENABLED
                 || (OPENWEATHER_API_KEY =? "your_api_key_here")%string |}.

(** The dictionary [get_weather_data] returns: a literal with these
    seven keys. *)
Record WeatherReading : Type := {
  temperature : float;
  heat_index : float;
  humidity : float;
  uv_index : float;
  description : string;
  timestamp : string;
  location : string
}.

(** The dictionary [get_aqi_data] returns.  [aqi] is a Python integer. *)
Record AqiReading : Type := {
  aqi : Z;
  category : string;
  pm2_5 : float;
  pm10 : float;
  no2 : float;
  so2 : float;
  co : float;
  o3 : float;
  aqi_timestamp : string
}.

(** [_get_aqi_category] (lines 136-149). *)
Definition _get_aqi_category (aqi : Z) : string :=
  if (aqi <=? 50)%Z then "Good"
  else if (aqi <=? 100)%Z then "Satisfactory"
  else if (aqi <=? 200)%Z then "Moderate"
  else if (aqi <=? 300)%Z then "Poor"
  else if (aqi <=? 400)%Z then "Very Poor"
  else "Severe".

(** [_get_mock_weather] (lines 151-161); [now] is
    [datetime.utcnow().isoformat()]. *)
Definition _get_mock_weather (now : string) : WeatherReading :=
  {| temperature := 38.5;
     heat_index := 45.2;
     humidity := 65.0;
     uv_index := 8.5;
     description := "hot and humid";
     timestamp := now;
     location := "Rourkela" |}.

(** [_get_mock_aqi] (lines 163-175). *)
Definition _get_mock_aqi (now : string) : AqiReading :=
  {| aqi := 180;
     category := "Moderate";
     pm2_5 := 85.5;
     pm10 := 120.3;
     no2 := 45.2;
     so2 := 25.1;
     co := 1200.5;
     o3 := 60.8;
     aqi_timestamp := now |}.

(** The body of the current-weather answer, as far as it is read:
    [data['main']['temp']], [data['main']['humidity']],
    [data['weather'][0]['description']] and [data.get('name', ...)].
    The answers are typed as the service documents them: a field that is
    present holds a number, a string, a list or an object as declared
    here, and [None] is an absent key. *)
Record MainJson : Type := {
  temp : option float;
  main_humidity : option float
}.

Record WeatherItemJson : Type := {
  item_description : option string
}.

Record WeatherJson : Type := {
  main : option MainJson;
  weather : option (list WeatherItemJson);
  name : option string
}.

(** The body of the UV answer: [uv_data.get('value', 5.0)]. *)
Record UvJson : Type := {
  value : option float
}.

(** The second request: [requests.get] raises, or answers with a status
    code and a body; the body is [None] when [uv_response.json()]
    raises. *)
Inductive UvAnswer : Type :=
| UvRaised
| UvResponse (status_code : Z) (body : option UvJson).

(** The body of the air-pollution answer: [data['list'][0]] with its
    ['components'] and ['main']['aqi']. *)
Record ComponentsJson : Type := {
  c_pm2_5 : option float;
  c_pm10 : option float;
  c_no2 : option float;
  c_so2 : option float;
  c_co : option float;
  c_o3 : option float
}.

Record AirMainJson : Type := {
  main_aqi : option Z
}.

Record AirEntryJson : Type := {
  components : option ComponentsJson;
  air_main : option AirMainJson
}.

Record AirJson : Type := {
  list_ : option (list AirEntryJson)
}.

(** [l[0]]: [None] stands for the [IndexError]. *)
Definition first {A : Type} (l : list A) : option A :=
  match l with
  | x :: _ => Some x
  | [] => None
  end.

(** Sequencing inside [try: ... except Exception]: every exception of
    the block leads to the same handler, so a failed step is [None]. *)
Definition attempt {A B : Type} (step : option A) (rest : A -> option B)
    : option B :=
  match step with
  | Some a => rest a
  | None => None
  end.

(** The table of line 94, and [table.get(key, default)]. *)
Definition aqi_mapping : list (Z * Z) :=
  [ (1, 50); (2, 100); (3, 200); (4, 300); (5, 400) ]%Z.

Fixpoint mapping_get (table : list (Z * Z)) (key default : Z) : Z :=
  match table with
  | [] => default
  | (k, v) :: rest => if (k =? key)%Z then v else mapping_get rest key default
  end.

(** The UV index of lines 52-54. *)
Definition uv_of_answer (uv : UvAnswer) : option float :=
  match uv with
  | UvRaised => None
  | UvResponse status_code body =>
      if (status_code =? 200)%Z then
        attempt body (fun uv_data => Some (Py.get (value uv_data) 5.0))
      else Some 5.0
  end.

(** [get_weather_data] (lines 19-67).  [response] is the outcome of the
    first request up to [response.json()] ([None]: [requests.get],
    [raise_for_status] or [json] raised), [uv] the outcome of the second
    one, [now] the clock.  The coordinates only go into the requests. *)
Definition get_weather_data (self : DataFetcher)
    (response : option WeatherJson) (uv : UvAnswer) (now : string)
    : WeatherReading :=
  if use_mock self then _get_mock_weather now
  else
    let live :=
      attempt response (fun data =>
      (* Calculate heat index (feels like temperature) *)
      attempt (attempt (main data) temp) (fun temp =>
      attempt (attempt (main data) main_humidity) (fun humidity =>
      let heat_index := DataFetcher._calculate_heat_index temp humidity in
      (* Get UV index from One Call API *)
      attempt (uv_of_answer uv) (fun uv_index =>
      attempt (attempt (attempt (weather data) first) item_description)
        (fun description =>
      Some {| temperature := temp;
              heat_index := heat_index;
              humidity := humidity;
              uv_index := uv_index;
              description := description;
              timestamp := now;
              location := Py.get (name data) "Unknown" |}))))) in
    match live with
    | Some reading => reading
    | None => _get_mock_weather now
    end.

(** [get_aqi_data] (lines 69-110). *)
Definition get_aqi_data (self : DataFetcher) (response : option AirJson)
    (now : string) : AqiReading :=
  if use_mock self then _get_mock_aqi now
  else
    let live :=
      attempt response (fun data =>
      attempt (attempt (attempt (list_ data) first) components)
        (fun components =>
      attempt (attempt (attempt (attempt (list_ data) first) air_main) main_aqi)
        (fun aqi =>
      (* Convert AQI scale to Indian AQI (0-500) *)
      let indian_aqi := mapping_get aqi_mapping aqi 100 in
      Some {| aqi := indian_aqi;
              category := _get_aqi_category indian_aqi;
              pm2_5 := Py.get (c_pm2_5 components) 0;
              pm10 := Py.get (c_pm10 components) 0;
              no2 := Py.get (c_no2 components) 0;
              so2 := Py.get (c_so2 components) 0;
              co := Py.get (c_co components) 0;
              o3 := Py.get (c_o3 components) 0;
              aqi_timestamp := now |}))) in
    match live with
    | Some reading => reading
    | None => _get_mock_aqi now
    end.

(** The readings as [predict_risk] receives them in [app.py] (lines
    167-171): the same dictionaries, of which it reads these keys. *)
Definition weather_data (reading : WeatherReading)
    : RiskPredictionModel.WeatherData :=
  {| RiskPredictionModel.temperature := Some (temperature reading);
     RiskPredictionModel.heat_index := Some (heat_index reading);
     RiskPredictionModel.humidity := Some (humidity reading);
     RiskPredictionModel.uv_index := Some (uv_index reading);
     RiskPredictionModel.timestamp := Some (timestamp reading) |}.

Definition aqi_data (reading : AqiReading) : RiskPredictionModel.AqiData :=
  {| RiskPredictionModel.aqi := Some (Py.float_of_int (aqi reading));
     RiskPredictionModel.pm2_5 := Some (pm2_5 reading) |}.

End Fetcher.

(** ** Notions used to state the properties *)

Module Notions.
Local Open Scope string_scope.

(** The position of a severity level: Low, Moderate, High, Very High. *)
Definition severity_rank (level : string) : nat :=
  if (level =? "Low")%string then 0
  else if (level =? "Moderate")%string then 1
  else if (level =? "High")%string then 2
  else 3.

(** The five advice texts of [_get_symptom_recommendations], in the order
    of its tests. *)
Definition advice_texts : list string :=
  [ "Rest in cool, dark room. Stay hydrated";
    "Drink water and electrolyte solution. Avoid exertion";
    "Stay in air-conditioned space. Avoid polluted areas";
    "Sip water slowly. Eat light foods. Rest";
    "Monitor temperature. Take rest. Stay cool" ].

(** A float that is not a NaN compares with itself. *)
Definition is_number (x : float) : Prop := PrimFloat.leb x x = true.


End Notions.

(** * Properties *)

(** ** Binary64 facts

    The primitive operations are specified by [spec_float] operations
    ([FloatAxioms]); the facts below are proved on that specification. *)

Module FloatFacts.

Lemma SFcompare_key (x y : spec_float) :
  SFcompare x y =
  match Binary64.key x, Binary64.key y with
  | Some a, Some b => Some (Binary64.lex a b)
  | _, _ => None
  end.
Proof.
  destruct x as [sx | sx | | sx mx ex], y as [sy | sy | | sy my ey];
    try destruct sx; try destruct sy; try reflexivity; simpl.
  rewrite Z.compare_opp, (Z.compare_antisym ex ey).
  destruct (ex ?= ey)%Z; reflexivity.
Qed.

Lemma lex_Lt_Gt (a b : Z * Z * Z) : Binary64.lex a b = Lt -> Binary64.lex b a = Gt.
Proof.
  destruct a as [[a1 a2] a3], b as [[b1 b2] b3]; simpl.
  rewrite (Z.compare_antisym a1 b1), (Z.compare_antisym a2 b2),
    (Z.compare_antisym a3 b3).
  destruct (a1 ?= b1)%Z, (a2 ?= b2)%Z, (a3 ?= b3)%Z; simpl; congruence.
Qed.

Lemma lex_le_trans (a b c : Z * Z * Z) :
  Binary64.lex a b <> Gt -> Binary64.lex b c <> Gt -> Binary64.lex a c <> Gt.
Proof.
  destruct a as [[a1 a2] a3], b as [[b1 b2] b3], c as [[c1 c2] c3]; simpl.
  destruct (Z.compare_spec a1 b1), (Z.compare_spec b1 c1),
    (Z.compare_spec a1 c1); try lia; try congruence;
  destruct (Z.compare_spec a2 b2), (Z.compare_spec b2 c2),
    (Z.compare_spec a2 c2); try lia; try congruence;
  destruct (Z.compare_spec a3 b3), (Z.compare_spec b3 c3),
    (Z.compare_spec a3 c3); try lia; congruence.
Qed.

Local Open Scope float_scope.

(** [x < y] excludes [y <= x]. *)
Lemma ltb_not_leb (x y : float) : (x <? y) = true -> (y <=? x) = false.
Proof.
  rewrite ltb_spec, leb_spec. unfold SFltb, SFleb.
  rewrite !SFcompare_key.
  destruct (Binary64.key (Prim2SF x)) as [a|], (Binary64.key (Prim2SF y)) as [b|];
    try discriminate; try reflexivity.
  intros H. destruct (Binary64.lex a b) eqn:E; try discriminate.
  rewrite (lex_Lt_Gt _ _ E). reflexivity.
Qed.

Lemma leb_trans (x y z : float) :
  (x <=? y) = true -> (y <=? z) = true -> (x <=? z) = true.
Proof.
  rewrite !leb_spec. unfold SFleb. rewrite !SFcompare_key.
  destruct (Binary64.key (Prim2SF x)) as [a|], (Binary64.key (Prim2SF y)) as [b|],
    (Binary64.key (Prim2SF z)) as [c|]; try discriminate.
  intros H1 H2.
  assert (Binary64.lex a c <> Gt) as H.
  { apply (lex_le_trans a b c).
    - destruct (Binary64.lex a b); congruence.
    - destruct (Binary64.lex b c); congruence. }
  destruct (Binary64.lex a c); congruence.
Qed.

Lemma lex_Gt_Lt (a b : Z * Z * Z) :
  Binary64.lex a b = Gt -> Binary64.lex b a = Lt.
Proof.
  destruct a as [[a1 a2] a3], b as [[b1 b2] b3]; simpl.
  rewrite (Z.compare_antisym a1 b1), (Z.compare_antisym a2 b2),
    (Z.compare_antisym a3 b3).
  destruct (a1 ?= b1)%Z, (a2 ?= b2)%Z, (a3 ?= b3)%Z; simpl; congruence.
Qed.

Lemma lex_refl (a : Z * Z * Z) : Binary64.lex a a = Eq.
Proof.
  destruct a as [[a1 a2] a3]; simpl. now rewrite !Z.compare_refl.
Qed.

(** A float above some bound is not a NaN: it compares with itself. *)
Lemma leb_self (a x : float) : (a <=? x) = true -> (x <=? x) = true.
Proof.
  rewrite !leb_spec. unfold SFleb. rewrite !SFcompare_key.
  destruct (Binary64.key (Prim2SF a)) as [ka|],
    (Binary64.key (Prim2SF x)) as [kx|]; try discriminate.
  intros _. now rewrite lex_refl.
Qed.

(** Two floats that are not NaN are comparable. *)
Lemma leb_or_ltb (x y : float) :
  (x <=? x) = true -> (y <=? y) = true ->
  (x <=? y) = true \/ (y <? x) = true.
Proof.
  rewrite !leb_spec, ltb_spec. unfold SFleb, SFltb.
  rewrite !SFcompare_key.
  destruct (Binary64.key (Prim2SF x)) as [a|],
    (Binary64.key (Prim2SF y)) as [b|]; try discriminate.
  intros _ _. destruct (Binary64.lex a b) eqn:E; auto.
  right. now rewrite (lex_Gt_Lt _ _ E).
Qed.

(** Above [b], hence not below a smaller bound [a]. *)
Lemma ltb_not_leb_below (x a b : float) :
  (a <=? b) = true -> (b <? x) = true -> (x <=? a) = false.
Proof.
  intros Hab Hbx. destruct (x <=? a) eqn:Hxa; [| reflexivity].
  pose proof (leb_trans _ _ _ Hxa Hab) as H.
  rewrite (ltb_not_leb _ _ Hbx) in H. discriminate.
Qed.



Lemma SFmul_comm (x y : spec_float) : SF64mul x y = SF64mul y x.
Proof.
  destruct x as [sx | sx | | sx mx ex], y as [sy | sy | | sy my ey];
    simpl; try reflexivity; try (rewrite xorb_comm; reflexivity).
  unfold SF64mul, SFmul.
  rewrite xorb_comm, Pos.mul_comm, Z.add_comm. reflexivity.
Qed.



Lemma mul_comm (x y : float) : x * y = y * x.
Proof. apply Prim2SF_inj. rewrite !mul_spec. apply SFmul_comm. Qed.


Lemma binary_round_aux_nonneg (m e : Z) (l : location) :
  Binary64.nonneg (binary_round_aux prec emax false m e l).
Proof.
  unfold binary_round_aux.
  destruct (shr_fexp prec emax m e l) as [mrs' e'].
  destruct (shr_fexp prec emax _ e' loc_Exact) as [mrs'' e''].
  destruct (shr_m mrs''); simpl; auto.
  destruct (_ <=? _)%Z; simpl; reflexivity.
Qed.

(** A positive finite dividend over a positive divisor: the quotient
    is not negative. *)
Lemma SFdiv_nonneg (m : positive) (e : Z) (y : spec_float) :
  SFltb (S754_zero false) y = true ->
  Binary64.nonneg (SF64div (S754_finite false m e) y).
Proof.
  destruct y as [sy | sy | | sy my ey]; simpl; try discriminate; auto.
  destruct sy; [discriminate |]. intros _.
  unfold SF64div, SFdiv.
  destruct (SFdiv_core_binary prec emax (Z.pos m) e (Z.pos my) ey)
    as [[mz ez] lz].
  apply binary_round_aux_nonneg.
Qed.

(** On a float that is not negative, truncation is the floor. *)
Lemma int_floor_nonneg (x : float) :
  Binary64.nonneg (Prim2SF x) -> Py.int x = Py.floor x.
Proof.
  unfold Py.int, Py.floor.
  destruct (Prim2SF x) as [s | s | | s m e]; simpl; try reflexivity.
  intros ->. reflexivity.
Qed.

Lemma twelve_over_positive (d : float) :
  (0 <? d) = true -> Py.int (12 / d) = Py.floor (12 / d).
Proof.
  intros Hd. apply int_floor_nonneg.
  rewrite div_spec. rewrite ltb_spec in Hd.
  change (Prim2SF 12) with (S754_finite false 6755399441055744 (-49)).
  apply SFdiv_nonneg. exact Hd.
Qed.


(** *** Rounding of positive values *)

Section Rounding.
Local Open Scope Z_scope.




















End Rounding.

End FloatFacts.

(** ** The heat-index calculator *)

Section HeatIndex.
Import DataFetcher.
Local Open Scope float_scope.



(** Below 27 degrees the humidity plays no part. *)
Lemma heat_index_below_27 (T H : float) :
  (T <? 27) = true -> _calculate_heat_index T H = T.
Proof. intros Hlt. unfold _calculate_heat_index. now rewrite Hlt. Qed.

Example heat_index_mock_reading : _calculate_heat_index 38.5 65 = 60.6.
Proof. vm_compute. reflexivity. Qed.

Example heat_index_cool : _calculate_heat_index 26.5 90 = 26.5.
Proof. vm_compute. reflexivity. Qed.

End HeatIndex.

(** ** Severity banding *)

Section SeverityBanding.
Import RiskPredictionModel.
Local Open Scope string_scope.
Local Open Scope float_scope.

(** C2.  For every risk score [s] in [0, 10], the band is Low when
    [s <= 2], Moderate when [2 < s <= 5], High when [5 < s <= 7] and
    Very High when [s > 7]; one of the four cases applies, and the
    boundaries 2, 5 and 7 belong to the lower band. *)
Theorem severity_level_bands (s : float) :
  (0 <=? s) = true -> (s <=? 10) = true ->
  ((s <=? 2) = true -> _get_severity_level s = "Low") /\
  ((2 <? s) = true -> (s <=? 5) = true ->
     _get_severity_level s = "Moderate") /\
  ((5 <? s) = true -> (s <=? 7) = true ->
     _get_severity_level s = "High") /\
  ((7 <? s) = true -> _get_severity_level s = "Very High") /\
  ((s <=? 2) = true \/
   ((2 <? s) = true /\ (s <=? 5) = true) \/
   ((5 <? s) = true /\ (s <=? 7) = true) \/
   (7 <? s) = true) /\
  _get_severity_level 2 = "Low" /\
  _get_severity_level 5 = "Moderate" /\
  _get_severity_level 7 = "High".
Proof.
  intros Hlo Hhi. unfold _get_severity_level.
  split; [| split; [| split; [| split; [| split]]]].
  - intros ->. reflexivity.
  - intros H2 ->. rewrite (FloatFacts.ltb_not_leb _ _ H2). reflexivity.
  - intros H5 ->.
    rewrite (FloatFacts.ltb_not_leb_below s 2 5 eq_refl H5).
    rewrite (FloatFacts.ltb_not_leb _ _ H5). reflexivity.
  - intros H7.
    rewrite (FloatFacts.ltb_not_leb_below s 2 7 eq_refl H7).
    rewrite (FloatFacts.ltb_not_leb_below s 5 7 eq_refl H7).
    rewrite (FloatFacts.ltb_not_leb _ _ H7). reflexivity.
  - pose proof (FloatFacts.leb_self _ _ Hlo) as Hs.
    destruct (FloatFacts.leb_or_ltb s 2 Hs eq_refl) as [H | H2]; [now left |].
    destruct (FloatFacts.leb_or_ltb s 5 Hs eq_refl) as [H | H5];
      [right; left; now split |].
    destruct (FloatFacts.leb_or_ltb s 7 Hs eq_refl) as [H | H7];
      [right; right; left; now split |].
    right; right; now right.
  - repeat split.
Qed.

Lemma severity_level_bands_witness :
  (0 <=? 3.5) = true /\ (3.5 <=? 10) = true /\
  (2 <? 3.5) = true /\ (3.5 <=? 5) = true /\
  _get_severity_level 3.5 = "Moderate".
Proof.
  assert ((0 <=? 3.5) = true) as Hlo by reflexivity.
  assert ((3.5 <=? 10) = true) as Hhi by reflexivity.
  assert ((2 <? 3.5) = true) as H2 by reflexivity.
  assert ((3.5 <=? 5) = true) as H5 by reflexivity.
  split; [exact Hlo |]. split; [exact Hhi |].
  split; [exact H2 |]. split; [exact H5 |].
  exact (proj1 (proj2 (severity_level_bands 3.5 Hlo Hhi)) H2 H5).
Defined.

End SeverityBanding.

(** ** The symptom analyzer *)

Section SymptomTriage.
Import SymptomAnalyzer.
Local Open Scope string_scope.
Local Open Scope Z_scope.

Lemma contains_In (l : list string) (x : string) :
  Py.contains l x = true <-> In x l.
Proof.
  unfold Py.contains. rewrite existsb_exists. split.
  - intros [y [Hy Heq]]. apply String.eqb_eq in Heq. now subst.
  - intros Hx. exists x. split; [assumption | apply String.eqb_refl].
Qed.

Lemma truth_filter {A : Type} (f : A -> bool) (l : list A) :
  Py.truth (filter f l) = true <-> exists x, In x l /\ f x = true.
Proof.
  split.
  - destruct (filter f l) as [| x l'] eqn:E; [discriminate |]. intros _.
    exists x. apply filter_In. rewrite E. now left.
  - intros [x Hx]. apply filter_In in Hx.
    destruct (filter f l); [contradiction | reflexivity].
Qed.

(** A severe symptom was reported exactly when the filtered list is
    not empty. *)
Lemma severe_found_match (symptoms : list string) :
  Py.truth (filter (Py.contains SEVERE_SYMPTOMS) symptoms) = true
  <-> spec_severe_match symptoms.
Proof.
  rewrite truth_filter. unfold spec_severe_match.
  split; intros [s [Hs Hsev]]; exists s; split; try assumption;
    now apply contains_In.
Qed.

(** The history test of the code is the history rule of the
    specification. *)
Lemma history_rule (history : list SymptomLog) :
  Py.truth history && (Py.len history >=? 3)
  && forallb (fun s => s >=? 5) (map get_severity (firstn 3 history))
  = spec_persistent (Some history).
Proof.
  destruct history as [| a [| b [| c l]]]; try reflexivity.
  unfold Py.len. simpl List.length.
  replace (Z.of_nat (S (S (S (List.length l)))) >=? 3) with true.
  - simpl. now rewrite andb_true_r, andb_assoc.
  - symmetry. rewrite Z.geb_leb. apply Z.leb_le. lia.
Qed.

(** The analyzer returns, whatever the severity: the flag is set by the
    severe-symptom rule and by the rule [severity >= 8], the alerts are
    those of the three rules in their order. *)
Lemma analyze_symptoms_returns (symptoms : list string) (severity : Z)
    (user_history : option (list SymptomLog)) :
  analyze_symptoms symptoms severity user_history
  = Py.Ok
      {| is_urgent :=
           Py.truth (filter (Py.contains SEVERE_SYMPTOMS) symptoms)
           || (severity >=? 8);
         alerts := spec_alerts symptoms severity user_history;
         recommendations := _get_symptom_recommendations symptoms severity;
         analysis_timestamp := None |}.
Proof.
  unfold analyze_symptoms, spec_alerts.
  assert (forall alerts0 : list Alert,
    match user_history with
    | Some history =>
        if Py.truth history && (Py.len history >=? 3) then
          if forallb (fun s => s >=? 5) (map get_severity (firstn 3 history))
          then Py.append alerts0 persistent_alert else alerts0
        else alerts0
    | None => alerts0
    end
    = (alerts0 ++ (if spec_persistent user_history
                   then [persistent_alert] else []))%list) as Hhist.
  { intros alerts0. destruct user_history as [history |].
    - rewrite <- history_rule.
      destruct (Py.truth history && (Py.len history >=? 3)); simpl;
        [destruct (forallb _ _) |]; simpl;
        try reflexivity; now rewrite app_nil_r.
    - simpl. now rewrite app_nil_r. }
  fold persistent_alert.
  destruct (Py.truth (filter (Py.contains SEVERE_SYMPTOMS) symptoms));
    destruct (severity >=? 8); try destruct (severity >=? 6);
    cbv beta iota zeta; rewrite Hhist; reflexivity.
Qed.


Lemma geb_false (a b : Z) : (a >=? b) = false <-> a < b.
Proof. rewrite Z.geb_leb. apply Z.leb_gt. Qed.



Example triage_chest_pain :
  exists analysis,
    analyze_symptoms ["chest_pain"] 9 None = Py.Ok analysis /\
    is_urgent analysis = true /\
    map level (alerts analysis) = ["critical"; "high"].
Proof. eexists. split; [reflexivity | split; reflexivity]. Qed.

Example triage_headache :
  exists analysis,
    analyze_symptoms ["headache"] 3 None = Py.Ok analysis /\
    is_urgent analysis = false /\
    alerts analysis = [] /\
    recommendations analysis = ["Rest in cool, dark room. Stay hydrated"].
Proof. eexists. repeat split; reflexivity. Qed.

Example triage_persistent_history :
  exists analysis,
    analyze_symptoms ["cough"] 2
      (Some [ {| severity := Some 6 |}; {| severity := Some 7 |};
              {| severity := Some 5 |} ]) = Py.Ok analysis /\
    is_urgent analysis = false /\
    alerts analysis = [persistent_alert].
Proof. eexists. repeat split; reflexivity. Qed.

(** C8, as stated, fails: a severity outside 1..10 raises nothing.  With
    severity 0, no symptom and no history the analyzer returns. *)
Lemma analyze_symptoms_no_range_check :
  ~ (forall (symptoms : list string) (severity : Z)
            (user_history : option (list SymptomLog)),
       severity < 1 \/ 10 < severity ->
       exists e, analyze_symptoms symptoms severity user_history = Py.Raise e).
Proof.
  intros H. destruct (H [] 0 None) as [e He]; [lia |].
  rewrite analyze_symptoms_returns in He. discriminate He.
Qed.

Lemma symptom_recommendations_length (symptoms : list string) (severity : Z) :
  (List.length (_get_symptom_recommendations symptoms severity) <= 5)%nat.
Proof.
  unfold _get_symptom_recommendations, Py.append.
  destruct (Py.contains symptoms "headache");
    destruct (Py.contains symptoms "fatigue" || Py.contains symptoms "dizziness");
    destruct (Py.contains symptoms "breathing_difficulty");
    destruct (Py.contains symptoms "nausea");
    destruct (severity >=? 5); simpl; lia.
Qed.

Lemma not_contains (symptoms : list string) (tag : string) :
  ~ In tag symptoms -> Py.contains symptoms tag = false.
Proof.
  intros Hn. destruct (Py.contains symptoms tag) eqn:E; [| reflexivity].
  apply contains_In in E. contradiction.
Qed.

(** C8, amended.  The analyzer checks no severity range: for every
    integer severity, inside 1..10 or not, it returns and raises nothing.
    Rules that do not match add nothing: there are at most three alerts
    and five recommendations, no alert when no triage rule matches, and
    no recommendation when no advice rule matches. *)
Theorem analyze_symptoms_never_fails (symptoms : list string) (severity : Z)
    (user_history : option (list SymptomLog)) :
  exists analysis,
    analyze_symptoms symptoms severity user_history = Py.Ok analysis /\
    (List.length (alerts analysis) <= 3)%nat /\
    (List.length (recommendations analysis) <= 5)%nat /\
    (~ spec_severe_match symptoms -> severity < 6 ->
     spec_persistent user_history = false -> alerts analysis = []) /\
    ((forall tag, In tag advice_tags -> ~ In tag symptoms) ->
     severity < 5 -> recommendations analysis = []).
Proof.
  rewrite analyze_symptoms_returns. eexists. split; [reflexivity |].
  cbn [alerts recommendations]. repeat split.
  - unfold spec_alerts.
    destruct (Py.truth _); destruct (severity >=? 8);
      destruct (severity >=? 6); destruct (spec_persistent _); simpl; lia.
  - apply symptom_recommendations_length.
  - intros Hs Hsev Hp. unfold spec_alerts. rewrite Hp.
    assert ((severity >=? 8) = false) as -> by (apply geb_false; lia).
    assert ((severity >=? 6) = false) as -> by (apply geb_false; lia).
    destruct (Py.truth _) eqn:E; [| reflexivity].
    apply severe_found_match in E. contradiction.
  - intros Htags Hsev. unfold _get_symptom_recommendations.
    rewrite !not_contains by (apply Htags; simpl; tauto).
    assert ((severity >=? 5) = false) as -> by (apply geb_false; lia).
    reflexivity.
Qed.

End SymptomTriage.

(** ** The recommendation generator *)

Section Recommendations.
Import RiskPredictionModel.
Local Open Scope string_scope.
Local Open Scope float_scope.

(** The water target of the code is the one of the specification. *)
Lemma daily_water_spec (risk_score : float) :
  daily_water risk_score = spec_dailyWater risk_score.
Proof.
  unfold daily_water, spec_dailyWater.
  now rewrite (FloatFacts.mul_comm risk_score 0.3).
Qed.


Lemma append_if {A : Type} (c : bool) (l : list A) (x : A) :
  (if c then Py.append l x else l) = (l ++ (if c then [x] else []))%list.
Proof. destruct c; [reflexivity | now rewrite app_nil_r]. Qed.

Lemma append_if2 {A : Type} (c1 c2 : bool) (l : list A) (x y : A) :
  (if c1 then Py.append l x else if c2 then Py.append l y else l)
  = (l ++ (if c1 then [x] else if c2 then [y] else []))%list.
Proof. destruct c1, c2; try reflexivity; now rewrite app_nil_r. Qed.

(** On complete readings the accumulated list is the concatenation of
    the seven rule outputs, in the documented order; the only statement
    that can raise is the interval computation of the hydration rule. *)
Lemma generate_recommendations_rules (risk_score : float)
    (user_profile : UserProfile) (weather_data : WeatherData)
    (aqi_data : AqiData) (temp q uv : float) :
  temperature weather_data = Some temp ->
  aqi aqi_data = Some q ->
  uv_index weather_data = Some uv ->
  _generate_recommendations risk_score user_profile weather_data aqi_data
  = if spec_hydration_fires temp risk_score then
      hours <- Py.int (12 / daily_water risk_score) ;;
      Py.Ok (spec_recommend risk_score user_profile temp uv q hours)
    else Py.Ok (spec_recommend risk_score user_profile temp uv q 0).
Proof.
  intros Ht Hq Hu.
  unfold _generate_recommendations, spec_recommend, spec_rules,
    spec_rule_heat, spec_rule_hydration, spec_rule_air_quality,
    spec_rule_uv_protection, spec_rule_health_conditions, spec_rule_age,
    spec_rule_general, spec_hydration_advisory, spec_hydration_fires.
  rewrite Ht, Hq, Hu, <- daily_water_spec.
  unfold Py.getitem, Py.Ok, Py.bind, Py.get.
  cbv beta iota zeta.
  assert (forall (l : list Advisory) (x : Advisory) (years : option float),
    (if match years with Some v => v | None => 0 end >? 60
     then Py.append l x else l)
    = (l ++ match years with
            | Some v => if v >? 60 then [x] else []
            | None => []
            end)%list) as Hage
    by (intros l x [v |]; [apply append_if | apply eq_sym, app_nil_r]).
  destruct ((temp >? 32) || (risk_score >? 3));
    [destruct (Py.int (12 / daily_water risk_score)) as [e | hours];
     [reflexivity |] |];
    rewrite ?Hage, ?append_if2, ?append_if; unfold Py.append;
    cbn [List.concat]; rewrite ?app_nil_r, ?app_nil_l, <- ?app_assoc;
    reflexivity.
Qed.

(** An advisory taken from a rule output of at most one element. *)
Ltac in_rule :=
  let Hin := fresh "Hin" in
  intros Hin; repeat (destruct Hin as [<- | Hin]);
  try contradiction; reflexivity.

(** C4.  On complete readings, and when the interval computation of the
    hydration rule returns, the generator returns the outputs of the seven
    rules in the documented order (heat, hydration, air_quality,
    uv_protection, health conditions, age, general): a rule that matches
    contributes exactly one advisory of its category, one that does not
    contributes none, and the outputs are concatenated as they stand.  The
    heat advisory above 40 degrees has priority "high", the general
    advisory above risk score 7 has priority "critical". *)
Theorem recommendations_rule_order (risk_score : float)
    (user_profile : UserProfile) (weather_data : WeatherData)
    (aqi_data : AqiData) (temp q uv : float) (hours : Z) :
  temperature weather_data = Some temp ->
  aqi aqi_data = Some q ->
  uv_index weather_data = Some uv ->
  (spec_hydration_fires temp risk_score = true ->
   Py.int (12 / daily_water risk_score) = Py.Ok hours) ->
  let rules := spec_rules risk_score user_profile temp uv q hours in
  _generate_recommendations risk_score user_profile weather_data aqi_data
  = Py.Ok (List.concat rules) /\
  Forall2 (fun rule matches =>
             List.length rule = if matches : bool then 1%nat else 0%nat)
    rules (spec_rule_matches risk_score user_profile temp uv q) /\
  Forall2 (fun rule name => forall adv, In adv rule -> category adv = name)
    rules spec_rule_categories /\
  ((temp >? 40) = true -> map priority (spec_rule_heat temp) = ["high"]) /\
  ((risk_score >? 7) = true ->
   map priority (spec_rule_general risk_score) = ["critical"]).
Proof.
  intros Ht Hq Hu Hhours rules. subst rules. split; [| split; [| split; [| split]]].
  - rewrite (generate_recommendations_rules _ _ _ _ _ _ _ Ht Hq Hu).
    unfold spec_recommend.
    destruct (spec_hydration_fires temp risk_score) eqn:Hf.
    + rewrite (Hhours eq_refl). reflexivity.
    + unfold spec_rules, spec_rule_hydration. rewrite Hf. reflexivity.
  - unfold spec_rules, spec_rule_matches, spec_rule_heat,
      spec_rule_hydration, spec_rule_air_quality, spec_rule_uv_protection,
      spec_rule_health_conditions, spec_rule_age, spec_rule_general.
    repeat constructor.
    + destruct (temp >? 40), (temp >? 35); reflexivity.
    + destruct (spec_hydration_fires temp risk_score); reflexivity.
    + destruct (q >? 200), (q >? 100); reflexivity.
    + destruct (uv >? 7); reflexivity.
    + destruct (Py.truth_opt _); reflexivity.
    + destruct (age user_profile) as [years |];
        [destruct (years >? 60) |]; reflexivity.
    + destruct (risk_score >? 7); reflexivity.
  - unfold spec_rules, spec_rule_categories, spec_rule_heat,
      spec_rule_hydration, spec_rule_air_quality, spec_rule_uv_protection,
      spec_rule_health_conditions, spec_rule_age, spec_rule_general.
    repeat constructor; intros adv.
    + destruct (temp >? 40), (temp >? 35); simpl; in_rule.
    + destruct (spec_hydration_fires temp risk_score); simpl; in_rule.
    + destruct (q >? 200), (q >? 100); simpl; in_rule.
    + destruct (uv >? 7); simpl; in_rule.
    + destruct (Py.truth_opt _); simpl; in_rule.
    + destruct (age user_profile) as [years |];
        [destruct (years >? 60) |]; simpl; in_rule.
    + destruct (risk_score >? 7); simpl; in_rule.
  - intros H. unfold spec_rule_heat. rewrite H. reflexivity.
  - intros H. unfold spec_rule_general. rewrite H. reflexivity.
Qed.

(** The example of section 8 of the specification: 42 degrees, AQI 220,
    UV 9, age 65 with a health condition, risk score 8. *)
Lemma recommendations_rule_order_witness :
  exists recs,
    _generate_recommendations 8 elderly_profile hot_weather hot_air
    = Py.Ok recs /\
    map (fun adv => (category adv, priority adv)) recs
    = [ ("heat", "high"); ("hydration", "high"); ("air_quality", "high");
        ("uv_protection", "medium"); ("health", "high"); ("health", "high");
        ("general", "critical") ].
Proof.
  eexists. split.
  - apply (recommendations_rule_order 8 elderly_profile hot_weather hot_air
             42 220 9 2); reflexivity.
  - reflexivity.
Defined.

(** A returned list means complete readings. *)
Lemma generate_recommendations_complete (risk_score : float)
    (user_profile : UserProfile) (weather_data : WeatherData)
    (aqi_data : AqiData) (recs : list Advisory) :
  _generate_recommendations risk_score user_profile weather_data aqi_data
  = Py.Ok recs ->
  exists temp q uv,
    temperature weather_data = Some temp /\
    aqi aqi_data = Some q /\
    uv_index weather_data = Some uv.
Proof.
  unfold _generate_recommendations.
  destruct (temperature weather_data) as [temp |]; [| discriminate].
  destruct (aqi aqi_data) as [q |].
  - destruct (uv_index weather_data) as [uv |].
    + intros _. exists temp, q, uv. repeat split.
    + unfold Py.getitem, Py.Ok, Py.Raise, Py.bind. cbv beta iota zeta.
      destruct ((temp >? 32) || (risk_score >? 3));
        [destruct (Py.int _) |]; discriminate.
  - unfold Py.getitem, Py.Ok, Py.Raise, Py.bind. cbv beta iota zeta.
    destruct ((temp >? 32) || (risk_score >? 3));
      [destruct (Py.int _) |]; discriminate.
Qed.




(** Outside the data model the two differ: [int] truncates towards zero.
    A risk score of -20 gives a water target of -2.5 and a quotient of
    -4.8. *)
Example interval_of_negative_target :
  Py.int (12 / daily_water (-20)) = Py.Ok (-4)%Z /\
  Py.floor (12 / daily_water (-20)) = Py.Ok (-5)%Z.
Proof. split; reflexivity. Qed.


End Recommendations.

(** ** Training labels and prediction *)

Section TrainingAndPrediction.
Import RiskPredictionModel.
Local Open Scope string_scope.
Local Open Scope float_scope.

(** The rule score of the loop is the rule score of the specification. *)
Lemma rule_risk_spec (x : list float) :
  rule_risk x
  = spec_rule_score (col x 0) (col x 4) (col x 3) (col x 6) (col x 8) (col x 7).
Proof.
  unfold rule_risk, spec_rule_score.
  destruct (col x 0 >? 40), (col x 0 >? 35), (col x 0 >? 32),
    (col x 4 >? 300), (col x 4 >? 200), (col x 4 >? 100),
    (col x 3 >? 8), ((col x 6 >? 60) || (col x 8 =? 1)), (col x 7 >? 6);
    reflexivity.
Qed.

Lemma rule_risk_range (x : list float) : (0 <= rule_risk x <= 9)%Z.
Proof.
  unfold rule_risk.
  destruct (col x 0 >? 40), (col x 0 >? 35), (col x 0 >? 32),
    (col x 4 >? 300), (col x 4 >? 200), (col x 4 >? 100),
    (col x 3 >? 8), ((col x 6 >? 60) || (col x 8 =? 1)), (col x 7 >? 6);
    lia.
Qed.

(** Where the sum is not negative the label is the clipped one. *)
Lemma train_label_clipped (x : list float) (noise : Z) :
  (0 <= rule_risk x + noise)%Z ->
  train_label x noise = Py.float_of_int (spec_label x noise).
Proof.
  intros H. unfold train_label, spec_label.
  rewrite <- rule_risk_spec. f_equal. lia.
Qed.

(** A label is the float of an integer between -1 and 10. *)
Lemma train_label_values (x : list float) (noise : Z) :
  In noise noise_values ->
  exists k : Z, (-1 <= k <= 10)%Z /\ train_label x noise = Py.float_of_int k.
Proof.
  intros Hn. exists (Z.min 10 (rule_risk x + noise)). split; [| reflexivity].
  pose proof (rule_risk_range x).
  destruct Hn as [<- | [<- | [<- | []]]]; lia.
Qed.

Lemma y_train_values (X_train : list (list float)) (noise : list Z)
    (label : float) :
  Forall (fun n => In n noise_values) noise ->
  In label (y_train X_train noise) ->
  exists k : Z, (-1 <= k <= 10)%Z /\ label = Py.float_of_int k.
Proof.
  intros Hnoise Hin. unfold y_train in Hin.
  apply in_map_iff in Hin. destruct Hin as [[x n] [<- Hxn]].
  apply in_combine_r in Hxn.
  rewrite Forall_forall in Hnoise.
  apply train_label_values. now apply Hnoise.
Qed.

(** C6.  The label of line 91 is not clipped from below: the sample
    [cool_sample] has rule score 0, and with the draw -1 its label is -1,
    where the specification's label, clipped to [0, 10], is 0. *)
Theorem train_label_not_clipped_below :
  In (-1)%Z noise_values /\
  rule_risk cool_sample = 0%Z /\
  train_label cool_sample (-1) = -1 /\
  (train_label cool_sample (-1) <? 0) = true /\
  spec_label cool_sample (-1) = 0%Z.
Proof. repeat split; try reflexivity. now left. Qed.

(** The features of complete readings. *)
Lemma features_complete (user_profile : UserProfile)
    (weather_data : WeatherData) (aqi_data : AqiData)
    (t hi h uv q pm : float) :
  temperature weather_data = Some t ->
  heat_index weather_data = Some hi ->
  humidity weather_data = Some h ->
  uv_index weather_data = Some uv ->
  aqi aqi_data = Some q ->
  pm2_5 aqi_data = Some pm ->
  features user_profile weather_data aqi_data
  = Py.Ok [ t; hi; h; uv; q; pm;
            Py.get (age user_profile) 30;
            Py.get (outdoor_hours user_profile) 4;
            if Py.truth_opt (health_conditions user_profile) then 1 else 0 ].
Proof.
  intros Ht Hhi Hh Hu Hq Hpm. unfold features.
  rewrite Ht, Hhi, Hh, Hu, Hq, Hpm. reflexivity.
Qed.

(** The six keys [features] reads with [d[key]]. *)
Lemma features_missing (user_profile : UserProfile)
    (weather_data : WeatherData) (aqi_data : AqiData) :
  temperature weather_data = None \/ heat_index weather_data = None \/
  humidity weather_data = None \/ uv_index weather_data = None \/
  aqi aqi_data = None \/ pm2_5 aqi_data = None ->
  exists key,
    In key ["temperature"; "heat_index"; "humidity"; "uv_index"; "aqi"; "pm2_5"]
    /\ features user_profile weather_data aqi_data = Py.Raise (Py.KeyError key).
Proof.
  intros Hmiss. unfold features.
  destruct (temperature weather_data);
    [| exists "temperature"; simpl; tauto].
  destruct (heat_index weather_data);
    [| exists "heat_index"; simpl; tauto].
  destruct (humidity weather_data);
    [| exists "humidity"; simpl; tauto].
  destruct (uv_index weather_data);
    [| exists "uv_index"; simpl; tauto].
  destruct (aqi aqi_data);
    [| exists "aqi"; simpl; tauto].
  destruct (pm2_5 aqi_data);
    [| exists "pm2_5"; simpl; tauto].
  repeat (destruct Hmiss as [Hmiss | Hmiss]; try discriminate).
Qed.

Lemma features_length (user_profile : UserProfile)
    (weather_data : WeatherData) (aqi_data : AqiData) (v : list float) :
  features user_profile weather_data aqi_data = Py.Ok v ->
  v = [ Py.get (temperature weather_data) 0;
        Py.get (heat_index weather_data) 0;
        Py.get (humidity weather_data) 0;
        Py.get (uv_index weather_data) 0;
        Py.get (aqi aqi_data) 0;
        Py.get (pm2_5 aqi_data) 0;
        Py.get (age user_profile) 30;
        Py.get (outdoor_hours user_profile) 4;
        if Py.truth_opt (health_conditions user_profile) then 1 else 0 ].
Proof.
  unfold features.
  destruct (temperature weather_data); [| discriminate].
  destruct (heat_index weather_data); [| discriminate].
  destruct (humidity weather_data); [| discriminate].
  destruct (uv_index weather_data); [| discriminate].
  destruct (aqi aqi_data); [| discriminate].
  destruct (pm2_5 aqi_data); [| discriminate].
  intros H. injection H as <-. reflexivity.
Qed.

(** C9.  The feature list of [predict_risk]: with the six readings
    present it is the nine values in the order of [feature_names], the
    absent profile fields replaced by age 30, 4 outdoor hours and no
    health condition; whenever it is built it has length 9; and when one
    of the six readings is missing the lookup raises ([KeyError], the
    failure the specification calls ValidationError) and [predict_risk]
    fails with it. *)
Theorem features_vector (user_profile : UserProfile)
    (weather_data : WeatherData) (aqi_data : AqiData) :
  (forall t hi h uv q pm : float,
     temperature weather_data = Some t ->
     heat_index weather_data = Some hi ->
     humidity weather_data = Some h ->
     uv_index weather_data = Some uv ->
     aqi aqi_data = Some q ->
     pm2_5 aqi_data = Some pm ->
     features user_profile weather_data aqi_data
     = Py.Ok [ t; hi; h; uv; q; pm;
               Py.get (age user_profile) 30;
               Py.get (outdoor_hours user_profile) 4;
               if Py.truth_opt (health_conditions user_profile)
               then 1 else 0 ]) /\
  (forall v : list float,
     features user_profile weather_data aqi_data = Py.Ok v ->
     List.length v = 9%nat /\
     (age user_profile = None -> outdoor_hours user_profile = None ->
      health_conditions user_profile = None -> skipn 6 v = [30; 4; 0])) /\
  (temperature weather_data = None \/ heat_index weather_data = None \/
   humidity weather_data = None \/ uv_index weather_data = None \/
   aqi aqi_data = None \/ pm2_5 aqi_data = None ->
   exists key,
     In key ["temperature"; "heat_index"; "humidity"; "uv_index"; "aqi";
             "pm2_5"] /\
     features user_profile weather_data aqi_data
     = Py.Raise (Py.KeyError key) /\
     forall self : Artifact,
       predict_risk self user_profile weather_data aqi_data
       = Py.Raise (Py.KeyError key)).
Proof.
  split; [| split].
  - apply features_complete.
  - intros v Hv. rewrite (features_length _ _ _ _ Hv). split; [reflexivity |].
    intros -> -> ->. reflexivity.
  - intros Hmiss.
    destruct (features_missing user_profile _ _ Hmiss) as [key [Hkey Hraise]].
    exists key. repeat split; try assumption.
    intros self. unfold predict_risk. rewrite Hraise. reflexivity.
Qed.

Example features_defaults :
  features {| age := None; outdoor_hours := None; health_conditions := None |}
    hot_weather hot_air
  = Py.Ok [42; 48; 70; 9; 220; 95; 30; 4; 0].
Proof. reflexivity. Qed.

Example features_no_humidity :
  features elderly_profile
    {| temperature := Some 42; heat_index := Some 48; humidity := None;
       uv_index := Some 9; timestamp := None |} hot_air
  = Py.Raise (Py.KeyError "humidity").
Proof. reflexivity. Qed.

(** The water target and the interval for each label. *)
Lemma label_daily_water (k : Z) :
  (-1 <= k <= 10)%Z ->
  (Py.float_of_int k >=? -1) = true /\
  (Py.float_of_int k <=? 10) = true /\
  (daily_water (Py.float_of_int k) >=? 3.2) = true /\
  (0 <? daily_water (Py.float_of_int k)) = true /\
  (daily_water (Py.float_of_int k) =? 0) = false /\
  exists hours : Z,
    (1 <= hours <= 3)%Z /\
    Py.int (12 / daily_water (Py.float_of_int k)) = Py.Ok hours.
Proof.
  intros Hk.
  assert (k = -1 \/ k = 0 \/ k = 1 \/ k = 2 \/ k = 3 \/ k = 4 \/ k = 5 \/
          k = 6 \/ k = 7 \/ k = 8 \/ k = 9 \/ k = 10)%Z as Hcases by lia.
  repeat (destruct Hcases as [-> | Hcases]); try subst k;
    (repeat split; try (vm_compute; reflexivity);
     eexists; split; [| vm_compute; reflexivity]; lia).
Qed.

(** C7.  The risk score [predict_risk] returns is the class the forest
    answers with, and -1 is a class of a forest fitted on the labels of
    line 91: with the artifact fitted on [cool_sample] and the draw -1,
    the returned risk score is -1, below the interval [0, 10]. *)
Theorem predict_risk_score_below_zero :
  emits_labels cool_artifact (y_train [cool_sample] [(-1)%Z]) /\
  exists assessment,
    predict_risk cool_artifact cool_profile cool_weather cool_air
    = Py.Ok assessment /\
    risk_score assessment = -1 /\
    (risk_score assessment <? 0) = true.
Proof.
  split.
  - intros X. now left.
  - eexists. split; [reflexivity | split; reflexivity].
Qed.

(** With a forest that answers with a training label, the risk score
    is one of the integers from -1 to 10. *)
Lemma predict_risk_score_values (self : Artifact)
    (X_train : list (list float)) (noise : list Z)
    (user_profile : UserProfile) (weather_data : WeatherData)
    (aqi_data : AqiData) (assessment : RiskAssessment) :
  Forall (fun n => In n noise_values) noise ->
  emits_labels self (y_train X_train noise) ->
  predict_risk self user_profile weather_data aqi_data = Py.Ok assessment ->
  exists k : Z,
    (-1 <= k <= 10)%Z /\ risk_score assessment = Py.float_of_int k.
Proof.
  intros Hnoise Hemit. unfold predict_risk.
  destruct (features user_profile weather_data aqi_data) as [e | v];
    [discriminate |].
  unfold Py.bind at 1.
  destruct (_generate_recommendations _ _ _ _) as [e | recs];
    [discriminate |].
  unfold Py.bind at 1.
  destruct (Py.getitem "timestamp" _) as [e | stamp]; [discriminate |].
  intros H. injection H as <-. cbn [risk_score].
  apply (y_train_values X_train noise); [assumption | apply Hemit].
Qed.

(** C10.  For every risk score a forest fitted on the labels of line 91
    can answer with (the labels lie between -1 and 10), the water target
    is at least 3.2, hence positive and not zero; the interval
    computation returns, and on complete readings so does the whole
    generator: no division by zero, no exception from [int]. *)
Theorem hydration_divisor_positive (self : Artifact)
    (X_train : list (list float)) (noise : list Z) (X : list float) :
  Forall (fun n => In n noise_values) noise ->
  emits_labels self (y_train X_train noise) ->
  let score := model_predict self X in
  (score >=? -1) = true /\
  (score <=? 10) = true /\
  (daily_water score >=? 3.2) = true /\
  (0 <? daily_water score) = true /\
  (daily_water score =? 0) = false /\
  (exists hours : Z,
     (1 <= hours <= 3)%Z /\
     Py.int (12 / daily_water score) = Py.Ok hours /\
     Py.floor (12 / daily_water score) = Py.Ok hours) /\
  (forall (user_profile : UserProfile) (weather_data : WeatherData)
          (aqi_data : AqiData) (temp q uv : float),
     temperature weather_data = Some temp ->
     aqi aqi_data = Some q ->
     uv_index weather_data = Some uv ->
     exists recs,
       _generate_recommendations score user_profile weather_data aqi_data
       = Py.Ok recs).
Proof.
  intros Hnoise Hemit score.
  destruct (y_train_values X_train noise score Hnoise (Hemit X))
    as [k [Hk Hscore]].
  destruct (label_daily_water k Hk)
    as [Hlo [Hhi [Hge [Hpos [Hne [hours [Hh Hint]]]]]]].
  rewrite <- Hscore in Hlo, Hhi, Hge, Hpos, Hne, Hint.
  repeat split; try assumption.
  - exists hours. repeat split; try lia; try assumption.
    rewrite <- (FloatFacts.twelve_over_positive _ Hpos). exact Hint.
  - intros user_profile weather_data aqi_data temp q uv Ht Hq Hu.
    rewrite (generate_recommendations_rules _ _ _ _ _ _ _ Ht Hq Hu).
    rewrite Hint.
    destruct (spec_hydration_fires temp score); eexists; reflexivity.
Qed.

Lemma hydration_divisor_positive_witness :
  Forall (fun n => In n noise_values) [(-1)%Z] /\
  emits_labels cool_artifact (y_train [cool_sample] [(-1)%Z]) /\
  (daily_water (model_predict cool_artifact cool_sample) >=? 3.2) = true.
Proof.
  assert (Forall (fun n => In n noise_values) [(-1)%Z]) as Hnoise
    by (repeat constructor).
  assert (emits_labels cool_artifact (y_train [cool_sample] [(-1)%Z]))
    as Hemit by (intros X; now left).
  split; [exact Hnoise |]. split; [exact Hemit |].
  exact (proj1 (proj2 (proj2
    (hydration_divisor_positive cool_artifact [cool_sample] [(-1)%Z]
       cool_sample Hnoise Hemit)))).
Defined.

End TrainingAndPrediction.

(** ** Further order and NaN facts of binary64 *)

Module FloatOrder.

Lemma lex_le_lt_trans (a b c : Z * Z * Z) :
  Binary64.lex a b <> Gt -> Binary64.lex b c = Lt -> Binary64.lex a c = Lt.
Proof.
  destruct a as [[a1 a2] a3], b as [[b1 b2] b3], c as [[c1 c2] c3]; simpl.
  destruct (Z.compare_spec a1 b1), (Z.compare_spec b1 c1),
    (Z.compare_spec a1 c1); try lia; try congruence;
  destruct (Z.compare_spec a2 b2), (Z.compare_spec b2 c2),
    (Z.compare_spec a2 c2); try lia; try congruence;
  destruct (Z.compare_spec a3 b3), (Z.compare_spec b3 c3),
    (Z.compare_spec a3 c3); try lia; congruence.
Qed.

Lemma lex_lt_le_trans (a b c : Z * Z * Z) :
  Binary64.lex a b = Lt -> Binary64.lex b c <> Gt -> Binary64.lex a c = Lt.
Proof.
  destruct a as [[a1 a2] a3], b as [[b1 b2] b3], c as [[c1 c2] c3]; simpl.
  destruct (Z.compare_spec a1 b1), (Z.compare_spec b1 c1),
    (Z.compare_spec a1 c1); try lia; try congruence;
  destruct (Z.compare_spec a2 b2), (Z.compare_spec b2 c2),
    (Z.compare_spec a2 c2); try lia; try congruence;
  destruct (Z.compare_spec a3 b3), (Z.compare_spec b3 c3),
    (Z.compare_spec a3 c3); try lia; congruence.
Qed.

Local Open Scope float_scope.

Lemma leb_ltb_trans (x y z : float) :
  (x <=? y) = true -> (y <? z) = true -> (x <? z) = true.
Proof.
  rewrite leb_spec, !ltb_spec. unfold SFleb, SFltb. rewrite !FloatFacts.SFcompare_key.
  destruct (Binary64.key (Prim2SF x)) as [a|], (Binary64.key (Prim2SF y)) as [b|],
    (Binary64.key (Prim2SF z)) as [c|]; try discriminate.
  intros H1 H2.
  rewrite (lex_le_lt_trans a b c); [reflexivity | |].
  - destruct (Binary64.lex a b); congruence.
  - destruct (Binary64.lex b c); congruence.
Qed.

Lemma ltb_leb_trans (x y z : float) :
  (x <? y) = true -> (y <=? z) = true -> (x <? z) = true.
Proof.
  rewrite leb_spec, !ltb_spec. unfold SFleb, SFltb. rewrite !FloatFacts.SFcompare_key.
  destruct (Binary64.key (Prim2SF x)) as [a|], (Binary64.key (Prim2SF y)) as [b|],
    (Binary64.key (Prim2SF z)) as [c|]; try discriminate.
  intros H1 H2.
  rewrite (lex_lt_le_trans a b c); [reflexivity | |].
  - destruct (Binary64.lex a b); congruence.
  - destruct (Binary64.lex b c); congruence.
Qed.

(** A NaN operand makes a NaN result. *)
Lemma Prim2SF_nan (x : float) : Prim2SF x = S754_nan -> x = nan.
Proof. intros H. apply Prim2SF_inj. rewrite H. reflexivity. Qed.

Lemma not_number_nan (x : float) : (x <=? x) = false -> x = nan.
Proof.
  rewrite leb_spec. unfold SFleb. rewrite FloatFacts.SFcompare_key.
  intros H. apply Prim2SF_nan.
  destruct (Prim2SF x) as [s | s | | s m e]; try reflexivity;
    cbn [Binary64.key] in H; rewrite FloatFacts.lex_refl in H;
    discriminate.
Qed.

Lemma mul_nan_l (x : float) : nan * x = nan.
Proof. apply Prim2SF_inj. rewrite mul_spec. reflexivity. Qed.

Lemma mul_nan_r (x : float) : x * nan = nan.
Proof.
  apply Prim2SF_inj. rewrite mul_spec.
  change (Prim2SF nan) with S754_nan. now destruct (Prim2SF x).
Qed.

Lemma add_nan_l (x : float) : nan + x = nan.
Proof. apply Prim2SF_inj. rewrite add_spec. reflexivity. Qed.

Lemma add_nan_r (x : float) : x + nan = nan.
Proof.
  apply Prim2SF_inj. rewrite add_spec.
  change (Prim2SF nan) with S754_nan. now destruct (Prim2SF x).
Qed.

End FloatOrder.

(** ** The label rule and the severity bands, as orders *)

Section LabelOrder.
Import RiskPredictionModel.
Local Open Scope string_scope.
Local Open Scope float_scope.

(** X1. The upper clip of line 91 is idle: for each of the three draws
    -1, 0 and 1 of [np.random.randint(-1, 2)] the label is the rule score
    plus the draw, whatever [min(10, .)] does, and it lies between -1 and
    10. *)
Theorem train_label_upper_clip_idle (x : list float) :
  Forall (fun noise =>
            train_label x noise = Py.float_of_int (rule_risk x + noise) /\
            (-1 <= rule_risk x + noise <= 10)%Z)
    noise_values.
Proof.
  pose proof (rule_risk_range x) as Hr.
  unfold train_label, noise_values.
  repeat constructor; try lia; f_equal; lia.
Qed.

(** A threshold passed by a value is passed by every larger value. *)
Lemma threshold_mono (c v v' : float) :
  (v <=? v') = true -> (v >? c) = true -> (v' >? c) = true.
Proof. intros Hle Hc. exact (FloatOrder.ltb_leb_trans _ _ _ Hc Hle). Qed.

Lemma points3_mono (c3 c2 c1 v v' : float) :
  (v <=? v') = true ->
  Z.le (if v >? c3 then 3%Z else if v >? c2 then 2%Z
        else if v >? c1 then 1%Z else 0%Z)
       (if v' >? c3 then 3%Z else if v' >? c2 then 2%Z
        else if v' >? c1 then 1%Z else 0%Z).
Proof.
  intros Hle.
  pose proof (threshold_mono c3 v v' Hle) as H3.
  pose proof (threshold_mono c2 v v' Hle) as H2.
  pose proof (threshold_mono c1 v v' Hle) as H1.
  destruct (v >? c3); [rewrite H3 by reflexivity; lia |].
  destruct (v >? c2); [rewrite H2 by reflexivity; destruct (v' >? c3); lia |].
  destruct (v >? c1);
    [rewrite H1 by reflexivity; destruct (v' >? c3), (v' >? c2); lia |].
  destruct (v' >? c3), (v' >? c2), (v' >? c1); lia.
Qed.

Lemma points1_mono (c v v' : float) (other : bool) :
  (v <=? v') = true ->
  Z.le (if (v >? c) || other then 1%Z else 0%Z)
       (if (v' >? c) || other then 1%Z else 0%Z).
Proof.
  intros Hle. pose proof (threshold_mono c v v' Hle) as H.
  destruct (v >? c); [rewrite H by reflexivity; simpl; lia |].
  destruct (v' >? c), other; simpl; lia.
Qed.

(** X2. The rule score of lines 58-88 is monotone: raising the
    temperature, the UV index, the AQI, the age or the outdoor hours of a
    sample, with the same health-condition flag, never lowers the score.
    The heat index, the humidity and PM2.5 play no part in it. *)
Theorem rule_risk_monotone
    (t hi h uv q pm a oh hc t' hi' h' uv' q' pm' a' oh' : float) :
  (t <=? t') = true -> (uv <=? uv') = true -> (q <=? q') = true ->
  (a <=? a') = true -> (oh <=? oh') = true ->
  (rule_risk [t; hi; h; uv; q; pm; a; oh; hc]
   <= rule_risk [t'; hi'; h'; uv'; q'; pm'; a'; oh'; hc])%Z.
Proof.
  intros Ht Hu Hq Ha Ho. rewrite !rule_risk_spec.
  unfold spec_rule_score, col. cbn [nth].
  pose proof (points3_mono 40 35 32 t t' Ht).
  pose proof (points3_mono 300 200 100 q q' Hq).
  pose proof (points1_mono 8 uv uv' false Hu) as H8.
  rewrite !orb_false_r in H8.
  pose proof (points1_mono 60 a a' (hc =? 1) Ha).
  pose proof (points1_mono 6 oh oh' false Ho) as H6.
  rewrite !orb_false_r in H6.
  lia.
Qed.

Lemma rule_risk_monotone_witness :
  Z.le (rule_risk [25; 30; 50; 3; 50; 20; 30; 2; 0])
       (rule_risk [41; 50; 80; 9; 350; 90; 70; 8; 0]).
Proof.
  apply rule_risk_monotone; reflexivity.
Defined.

(** X3. [_get_severity_level] is monotone: a score at least as high
    never gets a lower band in the order Low, Moderate, High, Very
    High. *)
Theorem severity_level_monotone (s s' : float) :
  (s <=? s') = true ->
  (Notions.severity_rank (_get_severity_level s)
   <= Notions.severity_rank (_get_severity_level s'))%nat.
Proof.
  intros Hle. unfold _get_severity_level.
  assert (forall c : float, (s' <=? c) = true -> (s <=? c) = true) as Hc
    by (intros c Hc; exact (FloatFacts.leb_trans _ _ _ Hle Hc)).
  pose proof (Hc 2) as H2. pose proof (Hc 5) as H5. pose proof (Hc 7) as H7.
  destruct (s' <=? 2); [rewrite H2 by reflexivity; apply le_n |].
  destruct (s' <=? 5);
    [rewrite H5 by reflexivity; destruct (s <=? 2); vm_compute; lia |].
  destruct (s' <=? 7);
    [rewrite H7 by reflexivity; destruct (s <=? 2), (s <=? 5); vm_compute; lia |].
  destruct (s <=? 2), (s <=? 5), (s <=? 7); vm_compute; lia.
Qed.

Lemma severity_level_monotone_witness :
  (Notions.severity_rank (_get_severity_level 2)
   <= Notions.severity_rank (_get_severity_level 2.5))%nat.
Proof. apply severity_level_monotone. reflexivity. Defined.

End LabelOrder.

(** ** The shape of the recommendation list *)

Section AdvisoryList.
Import RiskPredictionModel.
Local Open Scope string_scope.
Local Open Scope float_scope.


(** What a returned list is. *)
Lemma generate_recommendations_inv (risk_score : float)
    (user_profile : UserProfile) (weather_data : WeatherData)
    (aqi_data : AqiData) (recs : list Advisory) :
  _generate_recommendations risk_score user_profile weather_data aqi_data
  = Py.Ok recs ->
  exists (temp q uv : float) (hours : Z),
    temperature weather_data = Some temp /\
    aqi aqi_data = Some q /\
    uv_index weather_data = Some uv /\
    (spec_hydration_fires temp risk_score = true ->
     Py.int (12 / daily_water risk_score) = Py.Ok hours) /\
    recs = spec_recommend risk_score user_profile temp uv q hours.
Proof.
  intros Hok.
  destruct (generate_recommendations_complete _ _ _ _ _ Hok)
    as [temp [q [uv [Ht [Hq Hu]]]]].
  rewrite (generate_recommendations_rules _ _ _ _ _ _ _ Ht Hq Hu) in Hok.
  exists temp, q, uv.
  destruct (spec_hydration_fires temp risk_score) eqn:Hf.
  - destruct (Py.int (12 / daily_water risk_score)) as [e | hours];
      [discriminate |].
    injection Hok as <-. exists hours. repeat split; auto.
  - injection Hok as <-. exists 0%Z. repeat split; auto. discriminate.
Qed.

Lemma in_spec_recommend (risk_score : float) (profile : UserProfile)
    (temp uv q : float) (hours : Z) (adv : Advisory) :
  In adv (spec_recommend risk_score profile temp uv q hours) <->
  In adv (spec_rule_heat temp) \/
  In adv (spec_rule_hydration temp risk_score hours) \/
  In adv (spec_rule_air_quality q) \/
  In adv (spec_rule_uv_protection uv) \/
  In adv (spec_rule_health_conditions
            (Py.truth_opt (health_conditions profile))) \/
  In adv (spec_rule_age (age profile)) \/
  In adv (spec_rule_general risk_score).
Proof.
  unfold spec_recommend, spec_rules. cbn [List.concat].
  rewrite !in_app_iff. simpl In. tauto.
Qed.

(** The advisories of each rule. *)
Lemma in_rule_heat (temp : float) (adv : Advisory) :
  In adv (spec_rule_heat temp) ->
  category adv = "heat" /\ (temp >? 35) || (temp >? 40) = true /\
  priority adv <> "critical" /\ spec_rule_heat temp = [adv].
Proof.
  unfold spec_rule_heat.
  destruct (temp >? 40), (temp >? 35); simpl;
    intros Hin; repeat (destruct Hin as [<- | Hin]); try contradiction;
    repeat split; discriminate.
Qed.

Lemma in_rule_hydration (temp risk_score : float) (hours : Z) (adv : Advisory) :
  In adv (spec_rule_hydration temp risk_score hours) ->
  category adv = "hydration" /\ priority adv = "high".
Proof.
  unfold spec_rule_hydration.
  destruct (spec_hydration_fires temp risk_score); simpl;
    intros Hin; repeat (destruct Hin as [<- | Hin]); try contradiction;
    split; reflexivity.
Qed.

Lemma in_rule_air_quality (q : float) (adv : Advisory) :
  In adv (spec_rule_air_quality q) ->
  category adv = "air_quality" /\
  (priority adv = "high" /\ (q >? 200) = true \/
   priority adv = "medium" /\ (q >? 200) = false /\ (q >? 100) = true).
Proof.
  unfold spec_rule_air_quality.
  destruct (q >? 200), (q >? 100); simpl;
    intros Hin; repeat (destruct Hin as [<- | Hin]); try contradiction;
    split; try reflexivity; auto.
Qed.

Lemma in_rule_uv (uv : float) (adv : Advisory) :
  In adv (spec_rule_uv_protection uv) ->
  category adv = "uv_protection" /\ priority adv = "medium".
Proof.
  unfold spec_rule_uv_protection.
  destruct (uv >? 7); simpl;
    intros Hin; repeat (destruct Hin as [<- | Hin]); try contradiction;
    split; reflexivity.
Qed.

Lemma in_rule_health (has : bool) (adv : Advisory) :
  In adv (spec_rule_health_conditions has) ->
  category adv = "health" /\ priority adv = "high".
Proof.
  unfold spec_rule_health_conditions.
  destruct has; simpl;
    intros Hin; repeat (destruct Hin as [<- | Hin]); try contradiction;
    split; reflexivity.
Qed.

Lemma in_rule_age (years : option float) (adv : Advisory) :
  In adv (spec_rule_age years) ->
  category adv = "health" /\ priority adv = "high".
Proof.
  unfold spec_rule_age.
  destruct years as [y |]; [destruct (y >? 60) |]; simpl;
    intros Hin; repeat (destruct Hin as [<- | Hin]); try contradiction;
    split; reflexivity.
Qed.

Lemma in_rule_general (risk_score : float) (adv : Advisory) :
  In adv (spec_rule_general risk_score) ->
  category adv = "general" /\ priority adv = "critical" /\
  (risk_score >? 7) = true /\ spec_rule_general risk_score = [adv].
Proof.
  unfold spec_rule_general.
  destruct (risk_score >? 7); simpl;
    intros Hin; repeat (destruct Hin as [<- | Hin]); try contradiction;
    repeat split; reflexivity.
Qed.

(** The rule an advisory of a returned list comes from, by category. *)
Ltac rule_of Hin :=
  apply in_spec_recommend in Hin;
  destruct Hin as [Hin | [Hin | [Hin | [Hin | [Hin | [Hin | Hin]]]]]];
  [ pose proof (in_rule_heat _ _ Hin) as [? [? [? ?]]]
  | pose proof (in_rule_hydration _ _ _ _ Hin) as [? ?]
  | pose proof (in_rule_air_quality _ _ Hin) as [? ?]
  | pose proof (in_rule_uv _ _ Hin) as [? ?]
  | pose proof (in_rule_health _ _ Hin) as [? ?]
  | pose proof (in_rule_age _ _ Hin) as [? ?]
  | pose proof (in_rule_general _ _ Hin) as [? [? [? ?]]] ].

(** X4. Whenever the list [_generate_recommendations] returns has a heat
    advisory, that advisory is its first entry and the second entry is the
    hydration advisory, of priority high: the heat rule needs more than 35
    degrees, and the hydration rule fires above 32. *)
Theorem heat_advisory_then_hydration (risk_score : float)
    (user_profile : UserProfile) (weather_data : WeatherData)
    (aqi_data : AqiData) (recs : list Advisory) (adv : Advisory) :
  _generate_recommendations risk_score user_profile weather_data aqi_data
  = Py.Ok recs ->
  In adv recs -> category adv = "heat" ->
  exists (water : Advisory) (rest : list Advisory),
    recs = adv :: water :: rest /\
    category water = "hydration" /\ priority water = "high".
Proof.
  intros Hok Hin Hcat.
  destruct (generate_recommendations_inv _ _ _ _ _ Hok)
    as [temp [q [uv [hours [Ht [Hq [Hu [Hint ->]]]]]]]].
  rule_of Hin; try congruence.
  assert ((temp >? 32) = true) as H32.
  { destruct (temp >? 35) eqn:H35.
    - exact (FloatOrder.leb_ltb_trans 32 35 temp eq_refl H35).
    - destruct (temp >? 40) eqn:H40; [| discriminate].
      exact (FloatOrder.leb_ltb_trans 32 40 temp eq_refl H40). }
  unfold spec_recommend, spec_rules. cbn [List.concat].
  match goal with H : spec_rule_heat temp = [adv] |- _ => rewrite H end.
  unfold spec_rule_hydration, spec_hydration_fires. rewrite H32.
  eexists. eexists. split; [reflexivity | split; reflexivity].
Qed.

Lemma heat_advisory_then_hydration_witness :
  exists (adv water : Advisory) (rest : list Advisory),
    _generate_recommendations 8 elderly_profile hot_weather hot_air
    = Py.Ok (adv :: water :: rest) /\
    category adv = "heat" /\
    category water = "hydration" /\ priority water = "high".
Proof.
  set (recs := spec_recommend 8 elderly_profile 42 9 220 2).
  set (adv := hd (spec_hydration_advisory 8 2) recs).
  assert (_generate_recommendations 8 elderly_profile hot_weather hot_air
          = Py.Ok recs) as Hok by reflexivity.
  assert (In adv recs) as Hin by (now left).
  assert (category adv = "heat") as Hcat by reflexivity.
  destruct (heat_advisory_then_hydration 8 elderly_profile hot_weather
              hot_air recs adv Hok Hin Hcat)
    as [water [rest [Heq [Hwater Hhigh]]]].
  exists adv, water, rest. rewrite Hok, Heq. repeat split; assumption.
Defined.

(** X5. In a list [_generate_recommendations] returns, the priority
    critical belongs to the general advisory and to no other.  That
    advisory is present only when the risk score is above 7; it is then
    the last entry, and a hydration advisory stands before it. *)
Theorem critical_priority_is_general (risk_score : float)
    (user_profile : UserProfile) (weather_data : WeatherData)
    (aqi_data : AqiData) (recs : list Advisory) :
  _generate_recommendations risk_score user_profile weather_data aqi_data
  = Py.Ok recs ->
  (forall adv, In adv recs ->
     (priority adv = "critical" <-> category adv = "general")) /\
  (forall adv, In adv recs -> category adv = "general" ->
     (risk_score >? 7) = true /\
     exists front : list Advisory,
       recs = (front ++ [adv])%list /\
       exists water, In water front /\ category water = "hydration").
Proof.
  intros Hok.
  destruct (generate_recommendations_inv _ _ _ _ _ Hok)
    as [temp [q [uv [hours [Ht [Hq [Hu [Hint ->]]]]]]]].
  split.
  - intros adv Hin.
    rule_of Hin; split; intros; try congruence;
      repeat match goal with
             | H : _ /\ _ |- _ => destruct H
             | H : _ \/ _ |- _ => destruct H
             end; congruence.
  - intros adv Hin Hcat.
    rule_of Hin; try congruence;
      try (repeat match goal with
                  | H : _ /\ _ |- _ => destruct H
                  | H : _ \/ _ |- _ => destruct H
                  end; congruence).
    split; [assumption |].
    assert ((risk_score >? 3) = true) as H3
      by (exact (FloatOrder.leb_ltb_trans 3 7 risk_score eq_refl
                   ltac:(assumption))).
    unfold spec_recommend, spec_rules. cbn [List.concat].
    match goal with
    | H : spec_rule_general risk_score = [adv] |- _ => rewrite H
    end.
    rewrite app_nil_r, !app_assoc. eexists. split; [reflexivity |].
    exists (spec_hydration_advisory risk_score hours).
    split; [| reflexivity].
    rewrite !in_app_iff. left. left. left. left. right.
    unfold spec_rule_hydration, spec_hydration_fires.
    rewrite H3, orb_true_r. now left.
Qed.

Lemma critical_priority_is_general_witness :
  _generate_recommendations 8 elderly_profile hot_weather hot_air
  = Py.Ok (spec_recommend 8 elderly_profile 42 9 220 2) /\
  forall adv, In adv (spec_recommend 8 elderly_profile 42 9 220 2) ->
    (priority adv = "critical" <-> category adv = "general").
Proof.
  assert (_generate_recommendations 8 elderly_profile hot_weather hot_air
          = Py.Ok (spec_recommend 8 elderly_profile 42 9 220 2)) as Hok
    by reflexivity.
  split; [exact Hok |].
  exact (proj1 (critical_priority_is_general 8 elderly_profile hot_weather
                  hot_air _ Hok)).
Defined.

End AdvisoryList.

(** ** When [predict_risk] returns, and what *)

Section Assessment.
Import RiskPredictionModel.
Local Open Scope string_scope.
Local Open Scope float_scope.

(** What a returned assessment is. *)
Lemma predict_risk_inv (self : Artifact) (user_profile : UserProfile)
    (weather_data : WeatherData) (aqi_data : AqiData)
    (assessment : RiskAssessment) :
  predict_risk self user_profile weather_data aqi_data = Py.Ok assessment ->
  exists (v : list float) (recs : list Advisory) (stamp : string),
    features user_profile weather_data aqi_data = Py.Ok v /\
    _generate_recommendations (model_predict self (scaler_transform self v))
      user_profile weather_data aqi_data = Py.Ok recs /\
    timestamp weather_data = Some stamp /\
    assessment
    = {| risk_score := model_predict self (scaler_transform self v);
         severity_level :=
           _get_severity_level (model_predict self (scaler_transform self v));
         recommendations := recs;
         assessment_timestamp := stamp |}.
Proof.
  unfold predict_risk.
  destruct (features user_profile weather_data aqi_data) as [e | v];
    [discriminate |].
  unfold Py.bind at 1.
  destruct (_generate_recommendations _ _ _ _) as [e | recs] eqn:Hrecs;
    [discriminate |].
  unfold Py.bind at 1.
  destruct (timestamp weather_data) as [stamp |]; [| discriminate].
  intros H. injection H as <-. exists v, recs, stamp.
  split; [reflexivity |]. split; [exact Hrecs | split; reflexivity].
Qed.





(** The highest band is the band above 7. *)
Lemma severity_very_high (s : float) :
  Notions.is_number s ->
  (_get_severity_level s = "Very High" <-> (s >? 7) = true).
Proof.
  intros Hs. unfold _get_severity_level. split.
  - destruct (s <=? 2); [discriminate |].
    destruct (s <=? 5); [discriminate |].
    destruct (s <=? 7) eqn:H7; [discriminate |]. intros _.
    destruct (FloatFacts.leb_or_ltb s 7 Hs eq_refl) as [H | H];
      [congruence | exact H].
  - intros H7.
    rewrite (FloatFacts.ltb_not_leb_below s 2 7 eq_refl H7).
    rewrite (FloatFacts.ltb_not_leb_below s 5 7 eq_refl H7).
    now rewrite (FloatFacts.ltb_not_leb _ _ H7).
Qed.

(** X7. In an assessment [predict_risk] returns, whose score is a
    number, the severity level is Very High exactly when the
    recommendations hold the general advisory: both test the score
    against 7. *)
Theorem very_high_iff_general_advisory (self : Artifact)
    (user_profile : UserProfile) (weather_data : WeatherData)
    (aqi_data : AqiData) (assessment : RiskAssessment) :
  predict_risk self user_profile weather_data aqi_data = Py.Ok assessment ->
  Notions.is_number (risk_score assessment) ->
  (severity_level assessment = "Very High"
   <-> exists adv,
         In adv (recommendations assessment) /\ category adv = "general").
Proof.
  intros Hok Hnum.
  destruct (predict_risk_inv _ _ _ _ _ Hok)
    as [v [recs [stamp [_ [Hrecs [_ ->]]]]]].
  cbn [risk_score severity_level recommendations] in *.
  set (score := model_predict self (scaler_transform self v)) in *.
  rewrite (severity_very_high score Hnum).
  destruct (generate_recommendations_inv _ _ _ _ _ Hrecs)
    as [temp [q [uv [hours [_ [_ [_ [_ ->]]]]]]]].
  split.
  - intros H7. eexists. split.
    + apply in_spec_recommend. do 6 right.
      unfold spec_rule_general. rewrite H7. now left.
    + reflexivity.
  - intros [adv [Hin Hcat]].
    apply in_spec_recommend in Hin.
    destruct Hin as [Hin | [Hin | [Hin | [Hin | [Hin | [Hin | Hin]]]]]].
    + pose proof (in_rule_heat _ _ Hin) as [? _]. congruence.
    + pose proof (in_rule_hydration _ _ _ _ Hin) as [? _]. congruence.
    + pose proof (in_rule_air_quality _ _ Hin) as [? _]. congruence.
    + pose proof (in_rule_uv _ _ Hin) as [? _]. congruence.
    + pose proof (in_rule_health _ _ Hin) as [? _]. congruence.
    + pose proof (in_rule_age _ _ Hin) as [? _]. congruence.
    + pose proof (in_rule_general _ _ Hin) as [_ [_ [H7 _]]]. exact H7.
Qed.

Lemma very_high_iff_general_advisory_witness :
  exists assessment,
    predict_risk cool_artifact cool_profile cool_weather cool_air
    = Py.Ok assessment /\
    Notions.is_number (risk_score assessment) /\
    (severity_level assessment = "Very High"
     <-> exists adv,
           In adv (recommendations assessment) /\ category adv = "general").
Proof.
  destruct (predict_risk cool_artifact cool_profile cool_weather cool_air)
    as [e | assessment] eqn:Hok; [discriminate Hok |].
  assert (Notions.is_number (risk_score assessment)) as Hnum.
  { injection Hok as <-. reflexivity. }
  exists assessment. split; [reflexivity |]. split; [exact Hnum |].
  exact (very_high_iff_general_advisory cool_artifact cool_profile
           cool_weather cool_air assessment Hok Hnum).
Defined.

End Assessment.

(** ** What the symptom analysis depends on *)

Section TriageInputs.
Import SymptomAnalyzer.
Local Open Scope string_scope.
Local Open Scope Z_scope.

Lemma contains_ext (s1 s2 : list string) (tag : string) :
  (In tag s1 <-> In tag s2) -> Py.contains s1 tag = Py.contains s2 tag.
Proof.
  intros H.
  destruct (Py.contains s1 tag) eqn:E1, (Py.contains s2 tag) eqn:E2;
    try reflexivity.
  - apply contains_In in E1. apply H in E1. apply contains_In in E1. congruence.
  - apply contains_In in E2. apply H in E2. apply contains_In in E2. congruence.
Qed.

Lemma severe_found_ext (s1 s2 : list string) :
  (forall tag, In tag s1 <-> In tag s2) ->
  Py.truth (filter (Py.contains SEVERE_SYMPTOMS) s1)
  = Py.truth (filter (Py.contains SEVERE_SYMPTOMS) s2).
Proof.
  intros H.
  assert (spec_severe_match s1 <-> spec_severe_match s2) as Hm.
  { unfold spec_severe_match.
    split; intros [s [Hs Hsev]]; exists s; split; try assumption;
      now apply H. }
  rewrite <- !severe_found_match in Hm.
  destruct (Py.truth (filter _ s1)), (Py.truth (filter _ s2));
    try reflexivity; intuition congruence.
Qed.

Lemma map_level_spec_alerts (symptoms : list string) (severity : Z)
    (history : option (list SymptomLog)) :
  map level (spec_alerts symptoms severity history)
  = ((if Py.truth (filter (Py.contains SEVERE_SYMPTOMS) symptoms)
      then ["critical"] else [])
     ++ (if severity >=? 8 then ["high"]
         else if severity >=? 6 then ["medium"] else [])
     ++ (if spec_persistent history then ["high"] else []))%list.
Proof.
  unfold spec_alerts. rewrite !map_app.
  destruct (Py.truth _), (severity >=? 8), (severity >=? 6),
    (spec_persistent history); reflexivity.
Qed.

(** X8. [analyze_symptoms] reads the symptom list as a set: two lists
    with the same members, in any order and with any repetitions, get the
    same urgency flag, the same alert levels and the same
    recommendations. *)
Theorem analysis_depends_on_membership (s1 s2 : list string) (severity : Z)
    (user_history : option (list SymptomLog)) :
  (forall tag, In tag s1 <-> In tag s2) ->
  exists a1 a2,
    analyze_symptoms s1 severity user_history = Py.Ok a1 /\
    analyze_symptoms s2 severity user_history = Py.Ok a2 /\
    is_urgent a1 = is_urgent a2 /\
    map level (alerts a1) = map level (alerts a2) /\
    recommendations a1 = recommendations a2.
Proof.
  intros H. rewrite !analyze_symptoms_returns.
  eexists. eexists. split; [reflexivity |]. split; [reflexivity |].
  cbn [is_urgent alerts recommendations].
  rewrite !map_level_spec_alerts, (severe_found_ext s1 s2 H).
  repeat split.
  unfold _get_symptom_recommendations.
  now rewrite !(contains_ext s1 s2) by apply H.
Qed.

Lemma analysis_depends_on_membership_witness :
  exists a1 a2,
    analyze_symptoms ["headache"; "confusion"; "headache"] 4 None = Py.Ok a1 /\
    analyze_symptoms ["confusion"; "headache"] 4 None = Py.Ok a2 /\
    is_urgent a1 = is_urgent a2.
Proof.
  destruct (analysis_depends_on_membership
              ["headache"; "confusion"; "headache"] ["confusion"; "headache"]
              4 None) as [a1 [a2 [H1 [H2 [Hu _]]]]].
  - intros tag. simpl. tauto.
  - exists a1, a2. repeat split; assumption.
Defined.

(** X9. The recommendations of [_get_symptom_recommendations] are
    pairwise distinct and are among its five advice texts. *)
Theorem symptom_recommendations_distinct (symptoms : list string)
    (severity : Z) :
  NoDup (_get_symptom_recommendations symptoms severity) /\
  incl (_get_symptom_recommendations symptoms severity) Notions.advice_texts.
Proof.
  unfold _get_symptom_recommendations, Py.append, Notions.advice_texts.
  destruct (Py.contains symptoms "headache");
    destruct (Py.contains symptoms "fatigue" || Py.contains symptoms "dizziness");
    destruct (Py.contains symptoms "breathing_difficulty");
    destruct (Py.contains symptoms "nausea");
    destruct (severity >=? 5); cbn [app]; split;
    try (repeat constructor; simpl; intuition discriminate);
    intros text Hin; simpl in Hin; simpl; tauto.
Qed.

(** The history rule reads at most three entries. *)
Lemma spec_persistent_firstn (history : list SymptomLog) :
  spec_persistent (Some history)
  = spec_persistent (if (3 <=? List.length history)%nat
                     then Some (firstn 3 history) else None).
Proof. destruct history as [| a [| b [| c rest]]]; reflexivity. Qed.

(** X10. [analyze_symptoms] reads the first three entries of the
    history and no more: a history gives the analysis of its first three
    entries, and a history of fewer than three entries gives the analysis
    of no history. *)
Theorem history_beyond_three_ignored (symptoms : list string) (severity : Z)
    (history : list SymptomLog) :
  analyze_symptoms symptoms severity (Some history)
  = analyze_symptoms symptoms severity
      (if (3 <=? List.length history)%nat
       then Some (firstn 3 history) else None).
Proof.
  rewrite !analyze_symptoms_returns. unfold spec_alerts.
  now rewrite spec_persistent_firstn.
Qed.

(** X11. [analyze_symptoms] always returns, and the report is urgent
    exactly when its alerts hold a critical alert or the high-severity
    alert.  The alert for persistent symptoms also has the level high, but
    does not make the report urgent. *)
Theorem urgent_iff_critical_or_high_alert (symptoms : list string)
    (severity : Z) (user_history : option (list SymptomLog)) :
  exists analysis,
    analyze_symptoms symptoms severity user_history = Py.Ok analysis /\
    (is_urgent analysis = true
     <-> exists alert,
           In alert (alerts analysis) /\
           (level alert = "critical" \/ alert = high_alert)).
Proof.
  rewrite analyze_symptoms_returns. eexists. split; [reflexivity |].
  cbn [is_urgent alerts]. unfold spec_alerts. split.
  - intros Hu. apply orb_true_iff in Hu. destruct Hu as [Hs | H8].
    + rewrite Hs. eexists. split; [now left | now left].
    + rewrite H8. exists high_alert. split; [| now right].
      apply in_or_app. right. now left.
  - intros [alert [Hin Hkind]]. apply orb_true_iff.
    apply in_app_or in Hin. destruct Hin as [Hin | Hin].
    + left. destruct (Py.truth _); [reflexivity | contradiction].
    + right. apply in_app_or in Hin. destruct Hin as [Hin | Hin].
      * destruct (severity >=? 8); [reflexivity |].
        destruct (severity >=? 6); [| contradiction].
        destruct Hin as [<- | []].
        destruct Hkind as [H | H]; [discriminate H |].
        apply (f_equal level) in H. discriminate H.
      * destruct (spec_persistent user_history); [| contradiction].
        destruct Hin as [<- | []].
        destruct Hkind as [H | H]; [discriminate H |].
        apply (f_equal message) in H. vm_compute in H. discriminate H.
Qed.

Lemma filter_all {A : Type} (f : A -> bool) (l : list A) :
  Forall (fun x => f x = true) l -> filter f l = l.
Proof.
  induction 1 as [| x l Hx _ IH]; [reflexivity |].
  simpl. now rewrite Hx, IH.
Qed.

(** X12. A report that names only symptoms of [SEVERE_SYMPTOMS], at
    least one, with a severity below 5, is urgent, has the critical alert
    first, and gets no recommendation: the advice rules test other
    tags. *)
Theorem severe_only_gets_no_advice (symptoms : list string) (severity : Z)
    (user_history : option (list SymptomLog)) :
  symptoms <> [] ->
  Forall (fun s => In s SEVERE_SYMPTOMS) symptoms ->
  severity < 5 ->
  exists analysis rest,
    analyze_symptoms symptoms severity user_history = Py.Ok analysis /\
    is_urgent analysis = true /\
    alerts analysis = critical_alert symptoms :: rest /\
    recommendations analysis = [].
Proof.
  intros Hne Hsev Hlow. rewrite analyze_symptoms_returns.
  assert (filter (Py.contains SEVERE_SYMPTOMS) symptoms = symptoms) as Hfilter.
  { apply filter_all. rewrite Forall_forall in *.
    intros s Hs. now apply contains_In, Hsev. }
  assert (Py.truth symptoms = true) as Htruth
    by (destruct symptoms; [contradiction | reflexivity]).
  eexists. eexists. split; [reflexivity |].
  cbn [is_urgent alerts recommendations]. unfold spec_alerts.
  rewrite Hfilter, Htruth. split; [reflexivity |]. split; [reflexivity |].
  unfold _get_symptom_recommendations.
  assert (forall tag, In tag advice_tags -> Py.contains symptoms tag = false)
    as Htag.
  { intros tag Htag. apply not_contains. intros Hin.
    rewrite Forall_forall in Hsev. specialize (Hsev tag Hin).
    simpl in Htag, Hsev.
    repeat (destruct Htag as [<- | Htag]; [intuition discriminate |]).
    contradiction. }
  rewrite !Htag by (simpl; tauto).
  assert ((severity >=? 5) = false) as -> by (apply geb_false; lia).
  reflexivity.
Qed.

Lemma severe_only_gets_no_advice_witness :
  exists analysis rest,
    analyze_symptoms ["severe_headache"; "difficulty_breathing"] 4 None
    = Py.Ok analysis /\
    is_urgent analysis = true /\
    alerts analysis
    = critical_alert ["severe_headache"; "difficulty_breathing"] :: rest /\
    recommendations analysis = [].
Proof.
  apply severe_only_gets_no_advice.
  - discriminate.
  - repeat constructor; simpl; tauto.
  - lia.
Defined.

End TriageInputs.

(** ** [data_fetcher.py]: live and mock readings *)

Section Fetching.
Import Fetcher.
Local Open Scope string_scope.
Local Open Scope float_scope.

Lemma aqi_mapping_values (index : Z) :
  In (mapping_get aqi_mapping index 100) [50; 100; 200; 300; 400]%Z.
Proof.
  unfold aqi_mapping. cbn [mapping_get].
  destruct (1 =? index)%Z; [simpl; tauto |].
  destruct (2 =? index)%Z; [simpl; tauto |].
  destruct (3 =? index)%Z; [simpl; tauto |].
  destruct (4 =? index)%Z; [simpl; tauto |].
  destruct (5 =? index)%Z; simpl; tauto.
Qed.

(** The reading [get_aqi_data] returns is the mock one or a live one. *)
Lemma get_aqi_data_cases (self : DataFetcher) (response : option AirJson)
    (now : string) :
  get_aqi_data self response now = _get_mock_aqi now \/
  exists (index : Z) (c : ComponentsJson),
    get_aqi_data self response now
    = {| aqi := mapping_get aqi_mapping index 100;
         category := _get_aqi_category (mapping_get aqi_mapping index 100);
         pm2_5 := Py.get (c_pm2_5 c) 0;
         pm10 := Py.get (c_pm10 c) 0;
         no2 := Py.get (c_no2 c) 0;
         so2 := Py.get (c_so2 c) 0;
         co := Py.get (c_co c) 0;
         o3 := Py.get (c_o3 c) 0;
         aqi_timestamp := now |}.
Proof.
  unfold get_aqi_data. destruct (use_mock self); [now left |].
  destruct response as [[[[| [[c |] [[[index |] ] |]] rest] |]] |];
    cbn; try (now left).
  right. exists index, c. reflexivity.
Qed.

(** X13. The reading [get_aqi_data] returns, live or mock, whatever
    index the service answers, has one of six pairs of AQI and category; its
    category is the one [_get_aqi_category] gives its AQI, and it is never
    Severe, the last branch of [_get_aqi_category]. *)
Theorem aqi_reading_values (self : DataFetcher) (response : option AirJson)
    (now : string) :
  let reading := get_aqi_data self response now in
  In (aqi reading, category reading)
     [ (50, "Good"); (100, "Satisfactory"); (200, "Moderate");
       (300, "Poor"); (400, "Very Poor"); (180, "Moderate") ]%Z /\
  category reading = _get_aqi_category (aqi reading) /\
  category reading <> "Severe".
Proof.
  intros reading. subst reading.
  destruct (get_aqi_data_cases self response now) as [-> | [index [c ->]]].
  - cbn. repeat split; try tauto. discriminate.
  - cbn [aqi category].
    pose proof (aqi_mapping_values index) as Hv.
    set (v := mapping_get aqi_mapping index 100) in *. cbn [In] in Hv.
    destruct Hv as [<- | [<- | [<- | [<- | [<- | []]]]]];
      cbn; repeat split; try tauto; discriminate.
Qed.

Lemma fetched_aqi_values (self : DataFetcher) (response : option AirJson)
    (now : string) :
  In (aqi (get_aqi_data self response now)) [50; 100; 200; 300; 400; 180]%Z.
Proof.
  destruct (get_aqi_data_cases self response now) as [-> | [index [c ->]]].
  - simpl. tauto.
  - cbn [aqi]. pose proof (aqi_mapping_values index) as Hv.
    set (v := mapping_get aqi_mapping index 100) in *.
    cbn [In] in *. tauto.
Qed.

(** X14. For an air reading that comes from [get_aqi_data], a returned
    recommendation list holds the high air-quality advisory exactly when
    the reading's AQI is 300 or 400, and the medium one exactly when it is
    200 or 180 (the mock value). *)
Theorem fetched_aqi_advisory (self : DataFetcher) (response : option AirJson)
    (now : string) (risk_score : float)
    (user_profile : RiskPredictionModel.UserProfile)
    (weather : RiskPredictionModel.WeatherData)
    (recs : list RiskPredictionModel.Advisory) :
  let reading := get_aqi_data self response now in
  RiskPredictionModel._generate_recommendations risk_score user_profile
    weather (aqi_data reading) = Py.Ok recs ->
  ((exists adv, In adv recs /\
      RiskPredictionModel.category adv = "air_quality" /\
      RiskPredictionModel.priority adv = "high")
   <-> (aqi reading = 300 \/ aqi reading = 400)%Z) /\
  ((exists adv, In adv recs /\
      RiskPredictionModel.category adv = "air_quality" /\
      RiskPredictionModel.priority adv = "medium")
   <-> (aqi reading = 200 \/ aqi reading = 180)%Z).
Proof.
  intros reading Hok.
  destruct (generate_recommendations_inv _ _ _ _ _ Hok)
    as [temp [q [uv [hours [_ [Hq [_ [_ ->]]]]]]]].
  cbn [aqi_data RiskPredictionModel.aqi] in Hq. injection Hq as <-.
  assert (forall adv,
    In adv (RiskPredictionModel.spec_recommend risk_score user_profile temp uv
              (Py.float_of_int (aqi reading)) hours) /\
    RiskPredictionModel.category adv = "air_quality"
    <-> In adv (RiskPredictionModel.spec_rule_air_quality
                  (Py.float_of_int (aqi reading)))) as Hrule.
  { intros adv. split.
    - intros [Hin Hcat]. apply in_spec_recommend in Hin.
      destruct Hin as [Hin | [Hin | [Hin | [Hin | [Hin | [Hin | Hin]]]]]].
      + pose proof (in_rule_heat _ _ Hin) as [? _]. congruence.
      + pose proof (in_rule_hydration _ _ _ _ Hin) as [? _]. congruence.
      + exact Hin.
      + pose proof (in_rule_uv _ _ Hin) as [? _]. congruence.
      + pose proof (in_rule_health _ _ Hin) as [? _]. congruence.
      + pose proof (in_rule_age _ _ Hin) as [? _]. congruence.
      + pose proof (in_rule_general _ _ Hin) as [? _]. congruence.
    - intros Hin. split.
      + apply in_spec_recommend. right. right. now left.
      + now destruct (in_rule_air_quality _ _ Hin). }
  pose proof (fetched_aqi_values self response now) as Hv.
  fold reading in Hv. cbn [In] in Hv.
  assert (forall P : RiskPredictionModel.Advisory -> Prop,
    (exists adv,
       In adv (RiskPredictionModel.spec_recommend risk_score user_profile temp
                 uv (Py.float_of_int (aqi reading)) hours) /\
       RiskPredictionModel.category adv = "air_quality" /\ P adv)
    <-> exists adv,
          In adv (RiskPredictionModel.spec_rule_air_quality
                    (Py.float_of_int (aqi reading))) /\ P adv) as Hex.
  { intros P. split; intros [adv H]; exists adv.
    - split; [apply Hrule |]; tauto.
    - destruct H as [Hin HP]. apply Hrule in Hin. tauto. }
  rewrite !Hex.
  assert (forall p : string,
    (exists adv,
       In adv (RiskPredictionModel.spec_rule_air_quality
                 (Py.float_of_int (aqi reading))) /\
       RiskPredictionModel.priority adv = p)
    <-> In p (map RiskPredictionModel.priority
                (RiskPredictionModel.spec_rule_air_quality
                   (Py.float_of_int (aqi reading))))) as Hmap.
  { intros p. rewrite in_map_iff. split; intros [adv H]; exists adv; tauto. }
  rewrite !Hmap.
  destruct Hv as [<- | [<- | [<- | [<- | [<- | [<- | []]]]]]];
    vm_compute map; cbn [In]; split; split; intros H;
    try lia; try tauto;
    repeat (destruct H as [H | H]; try discriminate H; try contradiction).
Qed.

Lemma fetched_aqi_advisory_witness :
  exists recs,
    RiskPredictionModel._generate_recommendations 1
      RiskPredictionModel.cool_profile RiskPredictionModel.cool_weather
      (aqi_data (get_aqi_data (init "key" true) None "t")) = Py.Ok recs /\
    exists adv, In adv recs /\
      RiskPredictionModel.category adv = "air_quality" /\
      RiskPredictionModel.priority adv = "medium".
Proof.
  eexists. split; [reflexivity |].
  apply (fetched_aqi_advisory (init "key" true) None "t" 1
           RiskPredictionModel.cool_profile RiskPredictionModel.cool_weather
           _ eq_refl).
  now right.
Defined.

(** X15. [DataFetcher.__init__] sets [use_mock] to the mock flag or
    the test of the key against the placeholder; and with the flag set or
    the placeholder key, both fetchers return the mock readings whatever
    the service would answer. *)
Theorem placeholder_key_forces_mock (key : string) (flag : bool)
    (weather_response : option WeatherJson) (uv : UvAnswer)
    (air_response : option AirJson) (now : string) :
  use_mock (init key flag) = flag || (key =? "your_api_key_here")%string /\
  (flag = true \/ key = "your_api_key_here" ->
   get_weather_data (init key flag) weather_response uv now
   = _get_mock_weather now /\
   get_aqi_data (init key flag) air_response now = _get_mock_aqi now).
Proof.
  split; [reflexivity |]. intros H.
  assert (use_mock (init key flag) = true) as Hmock.
  { cbn [init use_mock]. destruct H as [-> | ->]; [reflexivity |].
    rewrite String.eqb_refl. apply orb_true_r. }
  unfold get_weather_data, get_aqi_data. now rewrite Hmock.
Qed.

Lemma placeholder_key_forces_mock_witness :
  get_weather_data (init "your_api_key_here" false)
    (Some {| main := Some {| temp := Some 30; main_humidity := Some 40 |};
             weather := Some [ {| item_description := Some "haze" |} ];
             name := None |})
    (UvResponse 200 (Some {| value := Some 3 |})) "t"
  = _get_mock_weather "t" /\
  get_aqi_data (init "your_api_key_here" false) None "t" = _get_mock_aqi "t".
Proof.
  apply (proj2 (placeholder_key_forces_mock "your_api_key_here" false
                  _ _ None "t")).
  now right.
Defined.

(** The reading [get_weather_data] returns is the mock one or a live
    one. *)
Lemma get_weather_data_cases (self : DataFetcher)
    (response : option WeatherJson) (uv : UvAnswer) (now : string) :
  get_weather_data self response uv now = _get_mock_weather now \/
  exists (data : WeatherJson) (t h u : float) (d : string),
    response = Some data /\ use_mock self = false /\
    uv_of_answer uv = Some u /\
    get_weather_data self response uv now
    = {| temperature := t;
         heat_index := DataFetcher._calculate_heat_index t h;
         humidity := h;
         uv_index := u;
         description := d;
         timestamp := now;
         location := Py.get (name data) "Unknown" |}.
Proof.
  unfold get_weather_data. destruct (use_mock self); [now left |].
  destruct response as [data |]; [| now left]. cbn [attempt].
  destruct (main data) as [[[t |] [h |]] |]; cbn; try (now left).
  destruct (uv_of_answer uv) as [u |]; cbn; [| now left].
  destruct (weather data) as [[| [[d |]] rest] |]; cbn; try (now left).
  right. exists data, t, h, u, d. repeat split.
Qed.


(** X16. The reading [get_weather_data] returns carries the time of
    the call, and it is the mock reading or its heat index is
    [_calculate_heat_index] of its own temperature and humidity, so that
    below 27 degrees the heat index is the temperature. *)
Theorem weather_reading_heat_index (self : DataFetcher)
    (response : option WeatherJson) (uv : UvAnswer) (now : string) :
  let reading := get_weather_data self response uv now in
  timestamp reading = now /\
  (reading = _get_mock_weather now \/
   heat_index reading
   = DataFetcher._calculate_heat_index (temperature reading)
       (humidity reading) /\
   ((temperature reading <? 27) = true ->
    heat_index reading = temperature reading)).
Proof.
  intros reading. subst reading.
  destruct (get_weather_data_cases self response uv now)
    as [-> | [data [t [h [u [d [_ [_ [_ ->]]]]]]]]].
  - split; [reflexivity | now left].
  - cbn [timestamp heat_index temperature humidity].
    split; [reflexivity |]. right. split; [reflexivity |].
    apply heat_index_below_27.
Qed.

Lemma weather_reading_heat_index_witness :
  heat_index
    (get_weather_data (init "key" false)
       (Some {| main := Some {| temp := Some 20; main_humidity := Some 40 |};
                weather := Some [ {| item_description := Some "haze" |} ];
                name := None |})
       (UvResponse 200 (Some {| value := Some 3 |})) "t")
  = 20.
Proof.
  destruct (proj2 (weather_reading_heat_index (init "key" false)
       (Some {| main := Some {| temp := Some 20; main_humidity := Some 40 |};
                weather := Some [ {| item_description := Some "haze" |} ];
                name := None |})
       (UvResponse 200 (Some {| value := Some 3 |})) "t"))
    as [Hmock | [_ Hbelow]].
  - apply (f_equal description) in Hmock. vm_compute in Hmock.
    discriminate Hmock.
  - apply Hbelow. reflexivity.
Defined.

(** X17. The two failures of the UV request differ.  With a good
    current-weather answer, a UV request that raises, or a UV answer with
    status 200 whose body cannot be read, discards the live reading for
    the mock one; a UV answer with another status keeps the live reading
    with the UV index 5.0. *)
Theorem uv_request_failure_modes (self : DataFetcher) (data : WeatherJson)
    (t h : float) (d : string) (rest : list WeatherItemJson)
    (status_code : Z) (body : option UvJson) (now : string) :
  use_mock self = false ->
  main data = Some {| temp := Some t; main_humidity := Some h |} ->
  weather data = Some ({| item_description := Some d |} :: rest) ->
  get_weather_data self (Some data) UvRaised now = _get_mock_weather now /\
  get_weather_data self (Some data) (UvResponse 200 None) now
  = _get_mock_weather now /\
  (status_code <> 200%Z ->
   get_weather_data self (Some data) (UvResponse status_code body) now
   = {| temperature := t;
        heat_index := DataFetcher._calculate_heat_index t h;
        humidity := h;
        uv_index := 5.0;
        description := d;
        timestamp := now;
        location := Py.get (name data) "Unknown" |}).
Proof.
  intros Hmock Hmain Hweather. unfold get_weather_data.
  rewrite Hmock. cbn [attempt]. rewrite Hmain, Hweather. cbn [attempt].
  repeat split.
  intros Hstatus. unfold uv_of_answer.
  apply Z.eqb_neq in Hstatus. rewrite Hstatus. reflexivity.
Qed.

Lemma uv_request_failure_modes_witness :
  get_weather_data (init "key" false)
    (Some {| main := Some {| temp := Some 30; main_humidity := Some 40 |};
             weather := Some [ {| item_description := Some "haze" |} ];
             name := None |})
    (UvResponse 503 None) "t"
  = {| temperature := 30;
       heat_index := DataFetcher._calculate_heat_index 30 40;
       humidity := 40;
       uv_index := 5.0;
       description := "haze";
       timestamp := "t";
       location := "Unknown" |}.
Proof.
  apply (uv_request_failure_modes (init "key" false)
           {| main := Some {| temp := Some 30; main_humidity := Some 40 |};
              weather := Some [ {| item_description := Some "haze" |} ];
              name := None |}
           30 40 "haze" [] 503 None "t" eq_refl eq_refl eq_refl).
  discriminate.
Defined.



(** X19. [_calculate_heat_index] gives NaN for a NaN temperature (the
    test [temperature < 27] is false for it), and for a NaN humidity when
    the temperature is not below 27. *)
Theorem heat_index_not_a_number (temperature humidity : float) :
  ~ Notions.is_number temperature \/
  ((temperature <? 27) = false /\ ~ Notions.is_number humidity) ->
  DataFetcher._calculate_heat_index temperature humidity = nan.
Proof.
  unfold Notions.is_number. intros [HT | [H27 HH]].
  - assert (temperature = nan) as ->.
    { apply FloatOrder.not_number_nan. now destruct (temperature <=? temperature). }
    unfold DataFetcher._calculate_heat_index.
    change (nan <? 27) with false. cbv iota zeta.
    repeat first [ rewrite FloatOrder.mul_nan_r | rewrite FloatOrder.mul_nan_l
                 | rewrite FloatOrder.add_nan_r | rewrite FloatOrder.add_nan_l ].
    reflexivity.
  - assert (humidity = nan) as ->.
    { apply FloatOrder.not_number_nan. now destruct (humidity <=? humidity). }
    unfold DataFetcher._calculate_heat_index. rewrite H27. cbv zeta.
    repeat first [ rewrite FloatOrder.mul_nan_r | rewrite FloatOrder.mul_nan_l
                 | rewrite FloatOrder.add_nan_r | rewrite FloatOrder.add_nan_l ].
    reflexivity.
Qed.

Lemma heat_index_not_a_number_witness :
  DataFetcher._calculate_heat_index nan 50 = nan.
Proof.
  apply (heat_index_not_a_number nan 50). left. discriminate.
Defined.

End Fetching.
